(** * Split View Scroller: the scroll-sync relay protocol

  A shallow embedding of the two scripts that make up the relay:

  - [content.js], the per-tab scroll observer ([Module Content]);
  - [background.js], the relay router shared by all tabs
    ([Module Background]).

  JavaScript numbers that measure the page (scroll offsets, heights,
  percentages) are IEEE 754 binary64 values and are modelled by Rocq's
  primitive floats, which implement the same format and rounding.  Tab
  identifiers, group identifiers and tab positions are integers and are
  modelled by [Z].  The two scripts mutate module-level state and call
  browser APIs; both are modelled by explicit state passing, with every
  write and every API call appended to a trace in program order. *)

From Stdlib Require Import ZArith Bool String List Lia Floats.
From Stdlib Require Import DecimalString DecimalZ.
Import ListNotations.
Local Open Scope string_scope.
Local Open Scope list_scope.
Local Open Scope Z_scope.

(** ** Message payloads (the contracts shared by both scripts) *)

(** [{percentage, pixel}], built by [calculateScrollMetrics]. *)
Module ScrollMetrics.
Record t : Set := mk { percentage : float; pixel : float }.
End ScrollMetrics.

(** [{percentage, pixel, syncMode}]; [syncMode] is [None] when the property
  is [undefined] on the received object. *)
Module SyncCommand.
Record t : Set := mk {
  percentage : float;
  pixel : float;
  syncMode : option string
}.
End SyncCommand.

(** [{enableSync?, syncMode?}]; [None] is [undefined]. *)
Module SettingsUpdate.
Record t : Set := mk {
  enableSync : option bool;
  syncMode : option string
}.
End SettingsUpdate.

(** A message, dispatched on its [type] string.  [OTHER] stands for every
  message whose [type] is none of the three in [Config.MESSAGE_TYPES]. *)
Inductive Message : Set :=
| SCROLL_EVENT (payload : ScrollMetrics.t)
| SYNC_SCROLL (payload : SyncCommand.t)
| SETTINGS_UPDATED (payload : SettingsUpdate.t)
| OTHER (type : string).

(** [a || b] on a possibly-undefined string: the empty string is falsy. *)
Definition js_or (a : option string) (b : string) : string :=
  match a with
  | Some s => if String.eqb s "" then b else s
  | None => b
  end.

(** ** content.js: the scroll observer *)

Module ScrollState.
Record t : Set := mk {
  isSyncing : bool;
  enableSync : bool;
  syncMode : string;
  isScrollScheduled : bool;
  syncTimeout : Z
}.

(** The object literal at the top of the script. *)
Definition initial : t := mk false true "percentage" false 50.

Definition set_isSyncing (b : bool) (s : t) : t :=
  mk b (enableSync s) (syncMode s) (isScrollScheduled s) (syncTimeout s).
Definition set_enableSync (b : bool) (s : t) : t :=
  mk (isSyncing s) b (syncMode s) (isScrollScheduled s) (syncTimeout s).
Definition set_syncMode (m : string) (s : t) : t :=
  mk (isSyncing s) (enableSync s) m (isScrollScheduled s) (syncTimeout s).
Definition set_isScrollScheduled (b : bool) (s : t) : t :=
  mk (isSyncing s) (enableSync s) (syncMode s) b (syncTimeout s).
End ScrollState.

Module Content.

(** What the script reads from the document:
    [document.documentElement.scrollHeight],
    [document.documentElement.clientHeight] and [window.scrollY]. *)
Record Page : Set := mkPage {
  scrollHeight : float;
  clientHeight : float;
  scrollY : float
}.

(** The two closures the script hands to the browser:
    [handleUserScroll] (to [requestAnimationFrame]) and
    [() => { ScrollState.isSyncing = false; }] (to [setTimeout]). *)
Inductive callback : Set := CbHandleUserScroll | CbClearSyncing.

(** Writes to [ScrollState] and calls of browser APIs. *)
Inductive action : Set :=
| SetIsSyncing (b : bool)
| SetEnableSync (b : bool)
| SetSyncMode (m : string)
| SetIsScrollScheduled (b : bool)
| SendMessage (m : Message)
| ScrollTo (top : float)
| SetTimeout (cb : callback) (delay : Z)
| RequestAnimationFrame (cb : callback).

(** One tab: whether the extension context of the script is still valid
    (it stops being so when the extension is reloaded or updated while the
    tab stays open), the script's state, the page, the clock in
    milliseconds, the pending timers with their deadlines, the callbacks
    waiting for the next animation frame, and everything done so far. *)
Record World : Set := mkWorld {
  connected : bool;
  state : ScrollState.t;
  page : Page;
  clock : Z;
  timers : list (Z * callback);
  frames : list callback;
  trace : list action
}.

(** *** State passing *)

(** How a piece of script ends: it returns a value, or it throws.  Nothing
    in the script catches what its own statements throw, so the thrown
    value is not recorded. *)
Inductive completion (A : Type) : Type :=
| Normal (a : A)
| Abrupt.
Arguments Normal {A} a.
Arguments Abrupt {A}.

Definition Obs (A : Type) : Type := World -> completion A * World.

Definition ret {A} (a : A) : Obs A := fun w => (Normal a, w).
(** [c; k]: when [c] throws, [k] does not run. *)
Definition bind {A B} (c : Obs A) (k : A -> Obs B) : Obs B :=
  fun w =>
    match c w with
    | (Normal a, w') => k a w'
    | (Abrupt, w') => (Abrupt, w')
    end.
(** The browser calling a listener or a callback: what it throws is
    reported and dropped, and the event loop goes on. *)
Definition dispatch {A} (c : Obs A) : Obs unit :=
  fun w => (Normal tt, snd (c w)).

Declare Scope obs_scope.
Delimit Scope obs_scope with obs.
Notation "x <- c ;; k" := (bind c (fun x => k))
  (at level 61, c at next level, right associativity) : obs_scope.
Notation "c ;; k" := (bind c (fun _ => k))
  (at level 61, right associativity) : obs_scope.
Local Open Scope obs_scope.

Definition exec {A} (c : Obs A) (w : World) : World := snd (c w).

Definition get_state : Obs ScrollState.t := fun w => (Normal (state w), w).
Definition get_page : Obs Page := fun w => (Normal (page w), w).

Definition perform (a : action) (f : ScrollState.t -> ScrollState.t)
  : Obs unit :=
  fun w => (Normal tt,
            mkWorld (connected w) (f (state w)) (page w) (clock w) (timers w)
                    (frames w) (trace w ++ [a])).

Definition assign_isSyncing (b : bool) : Obs unit :=
  perform (SetIsSyncing b) (ScrollState.set_isSyncing b).
Definition assign_enableSync (b : bool) : Obs unit :=
  perform (SetEnableSync b) (ScrollState.set_enableSync b).
Definition assign_syncMode (m : string) : Obs unit :=
  perform (SetSyncMode m) (ScrollState.set_syncMode m).
Definition assign_isScrollScheduled (b : bool) : Obs unit :=
  perform (SetIsScrollScheduled b) (ScrollState.set_isScrollScheduled b).

(** [chrome.runtime.sendMessage(m).catch(() => {})].  The call is recorded.
    While the extension context is valid the message is handed to the
    runtime and a rejection of the returned promise runs the empty handler.
    Once the context is invalidated the call itself throws, before there is
    a promise to attach the handler to. *)
Definition runtime_sendMessage (m : Message) : Obs unit :=
  fun w =>
    (if connected w then Normal tt else Abrupt,
     mkWorld (connected w) (state w) (page w) (clock w) (timers w)
             (frames w) (trace w ++ [SendMessage m])).

(** [window.scrollTo({ top, behavior: 'auto' })].  The call is recorded;
    where the page ends up, and the scroll notifications that follow, are
    the browser's. *)
Definition window_scrollTo (top : float) : Obs unit :=
  perform (ScrollTo top) (fun s => s).

Definition setTimeout (cb : callback) (delay : Z) : Obs unit :=
  fun w => (Normal tt,
            mkWorld (connected w) (state w) (page w) (clock w)
                    (timers w ++ [(clock w + delay, cb)])
                    (frames w) (trace w ++ [SetTimeout cb delay])).

Definition requestAnimationFrame (cb : callback) : Obs unit :=
  fun w => (Normal tt,
            mkWorld (connected w) (state w) (page w) (clock w) (timers w)
                    (frames w ++ [cb])
                    (trace w ++ [RequestAnimationFrame cb])).

(** *** The script *)

(** The storage callback of [loadSettings]; [None] is a callback invoked
    without a result, where reading [result.enableSync] throws and the
    [catch] installs the defaults. *)
Definition loadSettings_callback
    (result : option SettingsUpdate.t) : Obs unit :=
  match result with
  | Some r =>
      assign_enableSync
        match SettingsUpdate.enableSync r with
        | Some b => b
        | None => true
        end ;;
      assign_syncMode (js_or (SettingsUpdate.syncMode r) "percentage")
  | None =>
      assign_enableSync true ;;
      assign_syncMode "percentage"
  end.

(** The [scroll] listener installed by [setupEventListeners]. *)
Definition on_scroll : Obs unit :=
  st <- get_state ;;
  if negb (ScrollState.isScrollScheduled st) then
    assign_isScrollScheduled true ;;
    requestAnimationFrame CbHandleUserScroll
  else ret tt.

Definition calculateScrollMetrics (pg : Page) : option ScrollMetrics.t :=
  let scrollHeight := (scrollHeight pg - clientHeight pg)%float in
  if (scrollHeight <=? 0)%float then None
  else Some (ScrollMetrics.mk (scrollY pg / scrollHeight)%float (scrollY pg)).

Definition sendScrollEvent (metrics : ScrollMetrics.t) : Obs unit :=
  runtime_sendMessage (SCROLL_EVENT metrics).

Definition handleUserScroll : Obs unit :=
  st <- get_state ;;
  if negb (ScrollState.enableSync st) || ScrollState.isSyncing st then
    assign_isScrollScheduled false
  else
    pg <- get_page ;;
    match calculateScrollMetrics pg with
    | None => assign_isScrollScheduled false
    | Some scrollMetrics =>
        sendScrollEvent scrollMetrics ;;
        assign_isScrollScheduled false
    end.

Definition calculateTargetScrollPosition
    (st : ScrollState.t) (pg : Page) (payload : SyncCommand.t) : float :=
  let currentSyncMode :=
    js_or (SyncCommand.syncMode payload) (ScrollState.syncMode st) in
  if String.eqb currentSyncMode "percentage" then
    let targetPercentage := SyncCommand.percentage payload in
    let scrollHeight := (scrollHeight pg - clientHeight pg)%float in
    (targetPercentage * scrollHeight)%float
  else
    SyncCommand.pixel payload.

Definition handleSyncScrollMessage (payload : SyncCommand.t) : Obs unit :=
  st <- get_state ;;
  if negb (ScrollState.enableSync st) then ret tt
  else
    assign_isSyncing true ;;
    st <- get_state ;;
    pg <- get_page ;;
    let targetPixel := calculateTargetScrollPosition st pg payload in
    window_scrollTo targetPixel ;;
    setTimeout CbClearSyncing (ScrollState.syncTimeout st).

Definition handleSettingsUpdateMessage
    (payload : SettingsUpdate.t) : Obs unit :=
  match SettingsUpdate.enableSync payload with
  | Some b => assign_enableSync b
  | None => ret tt
  end ;;
  match SettingsUpdate.syncMode payload with
  | Some m => assign_syncMode m
  | None => ret tt
  end.

Definition handleIncomingMessage (message : Message) : Obs unit :=
  match message with
  | SYNC_SCROLL payload => handleSyncScrollMessage payload
  | SETTINGS_UPDATED payload => handleSettingsUpdateMessage payload
  | SCROLL_EVENT _ | OTHER _ => ret tt
  end.

(** *** The browser's side: running what the script registered *)

Definition run_callback (cb : callback) : Obs unit :=
  match cb with
  | CbHandleUserScroll => handleUserScroll
  | CbClearSyncing => assign_isSyncing false
  end.

Fixpoint run_callbacks (cbs : list callback) : Obs unit :=
  match cbs with
  | [] => ret tt
  | cb :: rest => dispatch (run_callback cb) ;; run_callbacks rest
  end.

(** An animation frame runs the callbacks requested since the last one. *)
Definition animation_frame : Obs unit :=
  fun w =>
    run_callbacks (frames w)
      (mkWorld (connected w) (state w) (page w) (clock w) (timers w) []
               (trace w)).

Definition due (t : Z) (tm : Z * callback) : bool := fst tm <=? t.

(** Time passes until [t]: the timers whose deadline is reached fire, in
    the order they were set (every timer of the script has the same delay,
    so this is the order of their deadlines). *)
Definition advance_to (t : Z) : Obs unit :=
  fun w =>
    run_callbacks (map snd (filter (due t) (timers w)))
      (mkWorld (connected w) (state w) (page w) (Z.max (clock w) t)
               (filter (fun tm => negb (due t tm)) (timers w))
               (frames w) (trace w)).

(** A message reaches the tab at time [t]. *)
Definition receive_at (t : Z) (message : Message) : Obs unit :=
  advance_to t ;; handleIncomingMessage message.

(** The messages sent by everything in a trace. *)
Fixpoint sent (tr : list action) : list Message :=
  match tr with
  | [] => []
  | SendMessage m :: rest => m :: sent rest
  | _ :: rest => sent rest
  end.

Definition initial_world (pg : Page) : World :=
  mkWorld true ScrollState.initial pg 0 [] [] [].

(** The scrollable range [scrollHeight - clientHeight] of a page. *)
Definition scrollable_range (pg : Page) : float :=
  (scrollHeight pg - clientHeight pg)%float.

(** The reading of "the flag is cleared first": the first thing an execution
    of [handleUserScroll] does is the write [isScrollScheduled = false]. *)
Definition clears_flag_first (w : World) : Prop :=
  exists rest,
    trace (exec handleUserScroll w)
    = trace w ++ SetIsScrollScheduled false :: rest.

End Content.

(** ** JavaScript values held by the fields of a tab object *)

Module JS.

(** The primitives a field of a tab can hold.  A symbol is the one primitive
    whose conversion to a string throws. *)
Inductive value : Set :=
| undefined
| number (n : Z)
| str (s : string)
| symbol (k : nat).

Definition is_undefined (v : value) : bool :=
  match v with undefined => true | _ => false end.

(** [a === b] *)
Definition strict_eq (a b : value) : bool :=
  match a, b with
  | undefined, undefined => true
  | number n, number m => Z.eqb n m
  | str s, str r => String.eqb s r
  | symbol k, symbol j => Nat.eqb k j
  | _, _ => false
  end.

(** The outcome of an expression that may throw.  The scripts never inspect
    the thrown value, so it is not recorded. *)
Inductive result (A : Type) : Type :=
| Ok (a : A)
| Throw.
Arguments Ok {A} a.
Arguments Throw {A}.

(** The conversion a template literal applies to [${v}]. *)
Definition ToString (v : value) : result string :=
  match v with
  | undefined => Ok "undefined"
  | number n => Ok (NilZero.string_of_int (Z.to_int n))
  | str s => Ok s
  | symbol _ => Throw
  end.

End JS.

(** ** background.js: the relay router *)

Module Tab.
Record t : Set := mk {
  id : JS.value;
  windowId : JS.value;
  splitViewId : JS.value;
  groupId : JS.value;
  index : JS.value
}.
End Tab.

(** The second argument of the [onMessage] listener; [tab] is [None] when
    the message does not come from a tab. *)
Module Sender.
Record t : Set := mk { tab : option Tab.t }.
End Sender.

Module Settings.
Record t : Set := mk { enableSync : bool; syncMode : string }.
End Settings.

Module Background.
Import JS.

(** One call of [chrome.tabs.sendMessage] and whether its promise was
    fulfilled (the tab received the message) or rejected. *)
Record attempt : Set := mkAttempt {
  target : value;
  message : Message;
  received : bool
}.

(** What the script asks the browser: the stored settings ([Throw] when
    storage fails, [None] fields for keys never saved), the tabs matching a
    [windowId] query, and which tabs have a listener that takes a message. *)
Record Browser : Type := mkBrowser {
  storage : result SettingsUpdate.t;
  tabs_query : value -> result (list Tab.t);
  listening : value -> bool
}.

(** *** Exceptions and the log of sends *)

Definition Bg (A : Type) : Type := list attempt * result A.

Definition ret {A} (a : A) : Bg A := ([], Ok a).
Definition throw {A} : Bg A := ([], Throw).
Definition bind {A B} (c : Bg A) (k : A -> Bg B) : Bg B :=
  match c with
  | (l, Ok a) => let (l', r) := k a in (l ++ l', r)
  | (l, Throw) => (l, Throw)
  end.
(** [try { c } catch (error) { h }] *)
Definition try_catch {A} (c : Bg A) (h : Bg A) : Bg A :=
  match c with
  | (l, Ok a) => (l, Ok a)
  | (l, Throw) => let (l', r) := h in (l ++ l', r)
  end.
Definition lift {A} (r : result A) : Bg A := ([], r).

Declare Scope bg_scope.
Delimit Scope bg_scope with bg.
Notation "x <- c ;; k" := (bind c (fun x => k))
  (at level 61, c at next level, right associativity) : bg_scope.
Local Open Scope bg_scope.

(** [for (const x of xs) { body }] *)
Fixpoint for_of {A} (xs : list A) (body : A -> Bg unit) : Bg unit :=
  match xs with
  | [] => ret tt
  | x :: rest => _ <- body x ;; for_of rest body
  end.

Definition attempts {A} (c : Bg A) : list attempt := fst c.
Definition outcome {A} (c : Bg A) : result A := snd c.

(** *** Browser APIs *)

(** [chrome.storage.sync.get(defaults)] *)
Definition storage_sync_get (b : Browser) (defaults : Settings.t)
  : Bg Settings.t :=
  match storage b with
  | Ok items =>
      ret (Settings.mk
             match SettingsUpdate.enableSync items with
             | Some v => v
             | None => Settings.enableSync defaults
             end
             match SettingsUpdate.syncMode items with
             | Some v => v
             | None => Settings.syncMode defaults
             end)
  | Throw => throw
  end.

(** [chrome.tabs.sendMessage(tabId, message)] *)
Definition tabs_sendMessage (b : Browser) (tabId : value) (m : Message)
  : Bg unit :=
  if listening b tabId then ([mkAttempt tabId m true], Ok tt)
  else ([mkAttempt tabId m false], Throw).

(** [sender.tab], read before one of its properties: the property read
    throws when [sender.tab] is undefined. *)
Definition sender_tab (sender : Sender.t) : Bg Tab.t :=
  match Sender.tab sender with
  | Some t => ret t
  | None => throw
  end.

(** *** The script *)

Definition getSplitViewId (tab : Tab.t) : result value :=
  if negb (is_undefined (Tab.splitViewId tab)) then
    Ok (Tab.splitViewId tab)
  else if negb (is_undefined (Tab.groupId tab)) then
    match ToString (Tab.groupId tab) with
    | Ok s => Ok (str ("group-" ++ s)%string)
    | Throw => Throw
    end
  else
    match ToString (Tab.index tab) with
    | Ok s => Ok (str ("pos-" ++ s)%string)
    | Throw => Ok undefined
    end.

Definition default_settings : Settings.t := Settings.mk true "percentage".

Definition getSettings (b : Browser) : Bg Settings.t :=
  try_catch (storage_sync_get b default_settings) (ret default_settings).

Definition isInSameSplitView (id1 id2 : value) : bool :=
  if is_undefined id1 && is_undefined id2 then true
  else if (is_undefined id1 && negb (is_undefined id2))
          || (negb (is_undefined id1) && is_undefined id2) then false
  else strict_eq id1 id2.

(** [{ type: 'SYNC_SCROLL', payload: { ...message.payload, syncMode } }] *)
Definition sync_scroll (payload : ScrollMetrics.t) (syncMode : string)
  : Message :=
  SYNC_SCROLL (SyncCommand.mk (ScrollMetrics.percentage payload)
                              (ScrollMetrics.pixel payload)
                              (Some syncMode)).

Definition relayScrollEventToTabs (b : Browser) (payload : ScrollMetrics.t)
    (sender : Sender.t) (senderSplitViewId : value) (syncMode : string)
  : Bg unit :=
  try_catch
    (st <- sender_tab sender ;;
     tabs <- lift (tabs_query b (Tab.windowId st)) ;;
     for_of tabs (fun tab =>
       st <- sender_tab sender ;;
       if strict_eq (Tab.id tab) (Tab.id st) then ret tt
       else if isInSameSplitView senderSplitViewId (Tab.splitViewId tab) then
         try_catch
           (tabs_sendMessage b (Tab.id tab) (sync_scroll payload syncMode))
           (ret tt)
       else ret tt))
    (ret tt).

Definition handleScrollEvent (b : Browser) (payload : ScrollMetrics.t)
    (sender : Sender.t) : Bg unit :=
  try_catch
    (settings <- getSettings b ;;
     if negb (Settings.enableSync settings) then ret tt
     else
       st <- sender_tab sender ;;
       senderSplitViewId <- lift (getSplitViewId st) ;;
       relayScrollEventToTabs b payload sender senderSplitViewId
                              (Settings.syncMode settings))
    (ret tt).

(** The [onMessage] listener. *)
Definition on_message (b : Browser) (m : Message) (sender : Sender.t)
  : Bg unit :=
  match m with
  | SCROLL_EVENT payload => handleScrollEvent b payload sender
  | _ => ret tt
  end.

(** The tabs that took a message in a run. *)
Definition receivers {A} (c : Bg A) : list value :=
  map target (filter received (attempts c)).

(** The two tests of the loop body of [relayScrollEventToTabs]: the tab is
    not the sender, and [isInSameSplitView] accepts it. *)
Definition candidate (st : Tab.t) (senderSplitViewId : value) (tab : Tab.t)
  : bool :=
  negb (strict_eq (Tab.id tab) (Tab.id st))
  && isInSameSplitView senderSplitViewId (Tab.splitViewId tab).

(** The send of the sync command to one tab, with its outcome. *)
Definition attempt_on (b : Browser) (payload : ScrollMetrics.t)
    (syncMode : string) (tab : Tab.t) : attempt :=
  mkAttempt (Tab.id tab) (sync_scroll payload syncMode)
            (listening b (Tab.id tab)).

End Background.

(** ** Concrete pages, tabs and browsers used in the examples below *)

Module Examples.
Import JS Content Background.

(** A page 1500 high in a viewport of 500 (range 1000), scrolled to 250. *)
Definition long_page : Page := mkPage 1500 500 250.
(** A page twice as long in the same viewport (range 2000). *)
Definition longer_page : Page := mkPage 2500 500 0.
(** A page that fits its viewport (range 0). *)
Definition short_page : Page := mkPage 500 500 0.

(** A freshly loaded tab whose scroll listener has just scheduled a frame. *)
Definition scheduled_world : World :=
  mkWorld true (ScrollState.set_isScrollScheduled true ScrollState.initial)
          long_page 0 [] [CbHandleUserScroll] [].

(** The same tab after the extension has been reloaded: the script is still
    on the page, its extension context is gone. *)
Definition orphaned_world : World :=
  mkWorld false (ScrollState.set_isScrollScheduled true ScrollState.initial)
          long_page 0 [] [CbHandleUserScroll] [].

(** The same tab while a sync command is being applied. *)
Definition syncing_world : World :=
  mkWorld true (ScrollState.mk true true "percentage" true 50)
          long_page 0 [(50, CbClearSyncing)] [CbHandleUserScroll] [].

Definition quarter : SyncCommand.t :=
  SyncCommand.mk 0.25 250 (Some "percentage").
Definition quarter_pixel : SyncCommand.t :=
  SyncCommand.mk 0.25 250 (Some "pixel").

(** Two sync commands 30 ms apart, observed 60 ms after the first. *)
Definition two_commands : Obs unit :=
  Content.bind (receive_at 0 (SYNC_SCROLL quarter)) (fun _ =>
  Content.bind (receive_at 30 (SYNC_SCROLL quarter)) (fun _ =>
  advance_to 60)).

Definition stored_nothing : result SettingsUpdate.t :=
  Ok (SettingsUpdate.mk None None).

Definition all_listening (tabs : list Tab.t) : Browser :=
  mkBrowser stored_nothing (fun _ => Ok tabs) (fun _ => true).

(** Two tabs of window 7 in tab group 5; the browser reports no
    [splitViewId]. *)
Definition grouped1 : Tab.t :=
  Tab.mk (number 1) (number 7) undefined (number 5) (number 0).
Definition grouped2 : Tab.t :=
  Tab.mk (number 2) (number 7) undefined (number 5) (number 1).

(** Two tabs of window 7 on which none of [splitViewId], [groupId] and
    [index] is defined. *)
Definition bare1 : Tab.t :=
  Tab.mk (number 1) (number 7) undefined undefined undefined.
Definition bare2 : Tab.t :=
  Tab.mk (number 2) (number 7) undefined undefined undefined.

(** Three tabs of split view 3; tab 2 has no listener. *)
Definition split1 : Tab.t :=
  Tab.mk (number 1) (number 7) (number 3) (number 5) (number 0).
Definition split2 : Tab.t :=
  Tab.mk (number 2) (number 7) (number 3) (number 5) (number 1).
Definition split3 : Tab.t :=
  Tab.mk (number 3) (number 7) (number 3) (number 5) (number 2).
Definition tab2_gone : Browser :=
  mkBrowser stored_nothing (fun _ => Ok [split1; split2; split3])
            (fun v => negb (strict_eq v (number 2))).

Definition scrolled : ScrollMetrics.t := ScrollMetrics.mk 0.25 250.

End Examples.

(** ** The life of one tab: what the browser makes the content script do *)

Module Timeline.
Import Content.
Local Open Scope obs_scope.

(** What can happen to a tab once the script is installed. *)
Inductive event : Set :=
| Scroll                                     (* a scroll notification *)
| Frame                                      (* an animation frame *)
| Receive (m : Message)                      (* a runtime message arrives *)
| Tick (t : Z)                               (* time passes until [t] *)
| Loaded (result : option SettingsUpdate.t)  (* the storage callback runs *)
| Layout (pg : Page)                         (* the page moves or resizes *)
| Invalidate.                                (* the extension is reloaded *)

Definition set_page (pg : Page) : Obs unit :=
  fun w => (Normal tt,
            mkWorld (connected w) (state w) pg (clock w) (timers w)
                    (frames w) (trace w)).

(** The extension context of the script is invalidated, for good. *)
Definition invalidate : Obs unit :=
  fun w => (Normal tt,
            mkWorld false (state w) (page w) (clock w) (timers w)
                    (frames w) (trace w)).

Definition handle (e : event) : Obs unit :=
  match e with
  | Scroll => on_scroll
  | Frame => animation_frame
  | Receive m => handleIncomingMessage m
  | Tick t => advance_to t
  | Loaded result => loadSettings_callback result
  | Layout pg => set_page pg
  | Invalidate => invalidate
  end.

Fixpoint run (evs : list event) : Obs unit :=
  match evs with
  | [] => ret tt
  | e :: rest => dispatch (handle e) ;; run rest
  end.

(** The worlds a tab can be in: those a run of events leads to from the
    state the script starts with. *)
Definition reachable (w : World) : Prop :=
  exists pg evs, w = exec (run evs) (initial_world pg).

(** Events that can write [enableSync] or [syncMode]. *)
Definition changes_settings (e : event) : bool :=
  match e with
  | Loaded _ | Receive (SETTINGS_UPDATED _) => true
  | _ => false
  end.

(** Events that neither let time pass nor bring a message. *)
Definition local_event (e : event) : bool :=
  match e with
  | Scroll | Frame | Layout _ => true
  | _ => false
  end.

Definition is_frame (e : event) : bool :=
  match e with
  | Frame => true
  | _ => false
  end.

(** The targets of the [window.scrollTo] calls in a trace. *)
Fixpoint scrolled_to (tr : list action) : list float :=
  match tr with
  | [] => []
  | ScrollTo top :: rest => top :: scrolled_to rest
  | _ :: rest => scrolled_to rest
  end.

(** What the script keeps true between events.  After a send has thrown,
    [isScrollScheduled] can be true with no callback queued, so the last
    field speaks of a valid extension context only. *)
Record invariant (w : World) : Prop := mkInvariant {
  inv_timeout : ScrollState.syncTimeout (state w) = 50;
  inv_timers :
    Forall (fun tm => snd tm = CbClearSyncing /\ fst tm <= clock w + 50)
           (timers w);
  inv_syncing : ScrollState.isSyncing (state w) = true -> timers w <> [];
  inv_frames :
    frames w = []
    \/ (frames w = [CbHandleUserScroll]
        /\ ScrollState.isScrollScheduled (state w) = true);
  inv_scheduled :
    connected w = true ->
    ScrollState.isScrollScheduled (state w) = true ->
    frames w = [CbHandleUserScroll]
}.

(** A step that writes nothing but [enableSync] and [syncMode]. *)
Record settings_step (w w' : World) : Prop := mkSettingsStep {
  step_isSyncing :
    ScrollState.isSyncing (state w') = ScrollState.isSyncing (state w);
  step_scheduled :
    ScrollState.isScrollScheduled (state w')
    = ScrollState.isScrollScheduled (state w);
  step_timeout :
    ScrollState.syncTimeout (state w') = ScrollState.syncTimeout (state w);
  step_connected : connected w' = connected w;
  step_page : page w' = page w;
  step_clock : clock w' = clock w;
  step_timers : timers w' = timers w;
  step_frames : frames w' = frames w;
  step_sent : sent (trace w') = sent (trace w);
  step_scrolled : scrolled_to (trace w') = scrolled_to (trace w)
}.

End Timeline.

(** ** The router's settings and keys, spelled out *)

Module RouterSpec.
Import JS Background.

(** The settings [getSettings] ends up with. *)
Definition effective_settings (b : Browser) : Settings.t :=
  match storage b with
  | Ok items =>
      Settings.mk
        match SettingsUpdate.enableSync items with
        | Some v => v
        | None => true
        end
        match SettingsUpdate.syncMode items with
        | Some v => v
        | None => "percentage"
        end
  | Throw => default_settings
  end.

(** A tab as a browser without [splitViewId] reports it. *)
Definition grouped_tab (id windowId groupId index : Z) : Tab.t :=
  Tab.mk (number id) (number windowId) undefined (number groupId)
         (number index).

(** A tab as a browser without [splitViewId] and [groupId] reports it. *)
Definition positioned_tab (id windowId index : Z) : Tab.t :=
  Tab.mk (number id) (number windowId) undefined undefined (number index).

End RouterSpec.

(** ** background.js: browser detection *)

Module BrowserDetection.
Import JS.

(** [window.chrome], with the truthiness of its two properties. *)
Record Chrome : Set := mkChrome { webstore : bool; runtime : bool }.

(** The globals [detectBrowser] reads.  [window] is [None] where no global
    of that name exists (reading it throws); [chrome] is [None] when
    [window.chrome] is undefined; [InstallTrigger] tells whether that global
    is defined. *)
Record Globals : Set := mkGlobals {
  window : option (option Chrome);
  InstallTrigger : bool;
  userAgent : string
}.

Record BrowserInfo : Set := mkInfo {
  isChrome : bool;
  isFirefox : bool;
  isEdgeChromium : bool;
  isChromium : bool
}.

(** [s.indexOf(needle) != -1] *)
Definition contains (needle s : string) : bool :=
  match String.index 0 needle s with
  | Some _ => true
  | None => false
  end.

Definition detectBrowser (g : Globals) : result BrowserInfo :=
  match window g with
  | None => Throw
  | Some chrome =>
      let isChrome :=
        match chrome with
        | Some c => webstore c || runtime c
        | None => false
        end in
      let isFirefox := InstallTrigger g in
      let isEdgeChromium := isChrome && contains "Edg" (userAgent g) in
      Ok (mkInfo isChrome isFirefox isEdgeChromium
                 (isChrome && negb isEdgeChromium))
  end.

End BrowserDetection.

(** ** popup.js: saving settings and telling the tabs *)

Module Popup.
Import JS.

(** What the popup does that can be seen from outside. *)
Inductive effect : Set :=
| StorageSet (items : SettingsUpdate.t)   (* chrome.storage.sync.set *)
| Send (a : Background.attempt)           (* chrome.tabs.sendMessage *)
| MarkSaved                               (* the button shows "Saved" *)
| CloseAfter (delay : Z)                  (* setTimeout(window.close) *)
| ShowError (message : string).           (* showError(message) *)

(** The popup's document: the value of the checked [syncMode] radio button
    ([None] when none is checked), the state of the [enableSync] checkbox
    ([None] when the element is missing) and whether [saveBtn] exists. *)
Record Document : Set := mkDocument {
  syncModeInput : option string;
  enableSyncInput : option bool;
  saveBtn : bool
}.

(** The browser as the popup sees it: whether [storage.sync.set] succeeds,
    the tabs of [chrome.tabs.query({})], and which tabs take a message. *)
Record Browser : Type := mkBrowser {
  storage_writable : bool;
  all_tabs : result (list Tab.t);
  listening : value -> bool
}.

Definition Pop (A : Type) : Type := list effect * result A.

Definition ret {A} (a : A) : Pop A := ([], Ok a).
Definition throw {A} : Pop A := ([], Throw).
Definition bind {A B} (c : Pop A) (k : A -> Pop B) : Pop B :=
  match c with
  | (l, Ok a) => let (l', r) := k a in (l ++ l', r)
  | (l, Throw) => (l, Throw)
  end.
Definition try_catch {A} (c : Pop A) (h : Pop A) : Pop A :=
  match c with
  | (l, Ok a) => (l, Ok a)
  | (l, Throw) => let (l', r) := h in (l ++ l', r)
  end.
Definition lift {A} (r : result A) : Pop A := ([], r).
Definition emit (e : effect) : Pop unit := ([e], Ok tt).

Declare Scope pop_scope.
Delimit Scope pop_scope with pop.
Notation "x <- c ;; k" := (bind c (fun x => k))
  (at level 61, c at next level, right associativity) : pop_scope.
Local Open Scope pop_scope.

Fixpoint for_of {A} (xs : list A) (body : A -> Pop unit) : Pop unit :=
  match xs with
  | [] => ret tt
  | x :: rest => _ <- body x ;; for_of rest body
  end.

Definition effects {A} (c : Pop A) : list effect := fst c.

(** [chrome.storage.sync.set(items)] *)
Definition storage_sync_set (b : Browser) (items : SettingsUpdate.t)
  : Pop unit :=
  if storage_writable b then emit (StorageSet items) else throw.

(** [chrome.tabs.sendMessage(tabId, message)] *)
Definition tabs_sendMessage (b : Browser) (tabId : value) (m : Message)
  : Pop unit :=
  if listening b tabId
  then ([Send (Background.mkAttempt tabId m true)], Ok tt)
  else ([Send (Background.mkAttempt tabId m false)], Throw).

(** The loop shared by [saveSettings] and [updateSyncStatus]. *)
Definition tell_all_tabs (b : Browser) (payload : SettingsUpdate.t)
  : Pop unit :=
  tabs <- lift (all_tabs b) ;;
  for_of tabs (fun tab =>
    try_catch
      (tabs_sendMessage b (Tab.id tab) (SETTINGS_UPDATED payload))
      (ret tt)).

Definition saveSettings (d : Document) (b : Browser) : Pop unit :=
  try_catch
    (match syncModeInput d, enableSyncInput d with
     | Some syncMode, Some enableSync =>
         _ <- storage_sync_set b
                (SettingsUpdate.mk (Some enableSync) (Some syncMode)) ;;
         _ <- tell_all_tabs b
                (SettingsUpdate.mk (Some enableSync) (Some syncMode)) ;;
         if saveBtn d then
           _ <- emit MarkSaved ;;
           emit (CloseAfter 500)
         else ret tt
     | _, _ => throw
     end)
    (emit (ShowError "Failed to save settings")).

(** [updateSyncStatus(e)], with [checked] for [e.target.checked]. *)
Definition updateSyncStatus (checked : bool) (b : Browser) : Pop unit :=
  try_catch
    (_ <- storage_sync_set b (SettingsUpdate.mk (Some checked) None) ;;
     tell_all_tabs b (SettingsUpdate.mk (Some checked) None))
    (emit (ShowError "Failed to update sync status")).

(** [storage.sync.set] overwrites the keys it is given and keeps the
    others. *)
Definition merge (items store : SettingsUpdate.t) : SettingsUpdate.t :=
  SettingsUpdate.mk
    match SettingsUpdate.enableSync items with
    | Some v => Some v
    | None => SettingsUpdate.enableSync store
    end
    match SettingsUpdate.syncMode items with
    | Some v => Some v
    | None => SettingsUpdate.syncMode store
    end.

(** The store after the writes among some effects. *)
Fixpoint stored (es : list effect) (store : SettingsUpdate.t)
  : SettingsUpdate.t :=
  match es with
  | [] => store
  | StorageSet items :: rest => stored rest (merge items store)
  | _ :: rest => stored rest store
  end.

(** The messages that reached a tab among some effects. *)
Fixpoint delivered (es : list effect) : list (value * Message) :=
  match es with
  | [] => []
  | Send a :: rest =>
      if Background.received a
      then (Background.target a, Background.message a) :: delivered rest
      else delivered rest
  | _ :: rest => delivered rest
  end.

(** The sends among some effects, delivered or not. *)
Fixpoint sends (es : list effect) : list Background.attempt :=
  match es with
  | [] => []
  | Send a :: rest => a :: sends rest
  | _ :: rest => sends rest
  end.

(** The send of a settings update to one tab, with its outcome. *)
Definition notice (b : Browser) (payload : SettingsUpdate.t) (tab : Tab.t)
  : effect :=
  Send (Background.mkAttempt (Tab.id tab) (SETTINGS_UPDATED payload)
                             (listening b (Tab.id tab))).

End Popup.

(** ** Properties of the scroll observer *)

Section ObserverProperties.
Import Content.
Local Open Scope obs_scope.

Lemma sent_app (l l' : list action) : sent (l ++ l') = sent l ++ sent l'.
Proof.
  induction l as [|a l IH]; simpl; [reflexivity|].
  destruct a; simpl; rewrite IH; reflexivity.
Qed.

(** A strictly positive binary64 value is not [<= 0]. *)
Lemma positive_not_leb_zero (r : float) :
  (0 <? r)%float = true -> (r <=? 0)%float = false.
Proof.
  rewrite ltb_spec, leb_spec. unfold SFltb, SFleb.
  change (Prim2SF 0) with (S754_zero false).
  destruct (Prim2SF r) as [s|s| |s m e]; simpl;
    try destruct s; simpl; congruence.
Qed.

(** The ways through [handleUserScroll], as equations on the trace and the
    state. *)
Lemma handleUserScroll_abort (w : World) :
  negb (ScrollState.enableSync (state w)) || ScrollState.isSyncing (state w)
  = true ->
  exec handleUserScroll w
  = mkWorld (connected w)
            (ScrollState.set_isScrollScheduled false (state w)) (page w)
            (clock w) (timers w) (frames w)
            (trace w ++ [SetIsScrollScheduled false]).
Proof.
  intros H. unfold exec, handleUserScroll, bind, get_state. simpl.
  rewrite H. reflexivity.
Qed.

Lemma handleUserScroll_no_scroll (w : World) :
  negb (ScrollState.enableSync (state w)) || ScrollState.isSyncing (state w)
  = false ->
  calculateScrollMetrics (page w) = None ->
  exec handleUserScroll w
  = mkWorld (connected w)
            (ScrollState.set_isScrollScheduled false (state w)) (page w)
            (clock w) (timers w) (frames w)
            (trace w ++ [SetIsScrollScheduled false]).
Proof.
  intros H Hm. unfold exec, handleUserScroll, bind, get_state, get_page.
  simpl. rewrite H, Hm. reflexivity.
Qed.

Lemma handleUserScroll_emit (w : World) (m : ScrollMetrics.t) :
  negb (ScrollState.enableSync (state w)) || ScrollState.isSyncing (state w)
  = false ->
  calculateScrollMetrics (page w) = Some m ->
  connected w = true ->
  exec handleUserScroll w
  = mkWorld (connected w)
            (ScrollState.set_isScrollScheduled false (state w)) (page w)
            (clock w) (timers w) (frames w)
            (trace w ++ [SendMessage (SCROLL_EVENT m);
                         SetIsScrollScheduled false]).
Proof.
  intros H Hm Hc. unfold exec, handleUserScroll, bind, get_state, get_page.
  simpl. rewrite H, Hm. unfold sendScrollEvent, runtime_sendMessage.
  simpl. rewrite Hc. simpl. rewrite <- app_assoc. reflexivity.
Qed.

(** The send throws: the handler ends there, and the statement after the
    send does not run. *)
Lemma handleUserScroll_throws (w : World) (m : ScrollMetrics.t) :
  negb (ScrollState.enableSync (state w)) || ScrollState.isSyncing (state w)
  = false ->
  calculateScrollMetrics (page w) = Some m ->
  connected w = false ->
  exec handleUserScroll w
  = mkWorld (connected w) (state w) (page w) (clock w) (timers w) (frames w)
            (trace w ++ [SendMessage (SCROLL_EVENT m)]).
Proof.
  intros H Hm Hc. unfold exec, handleUserScroll, bind, get_state, get_page.
  simpl. rewrite H, Hm. unfold sendScrollEvent, runtime_sendMessage.
  simpl. rewrite Hc. reflexivity.
Qed.

(** Whether the handler returns or throws. *)
Lemma handleUserScroll_completion (w : World) :
  fst (handleUserScroll w)
  = if negb (ScrollState.enableSync (state w))
       || ScrollState.isSyncing (state w)
    then Normal tt
    else match calculateScrollMetrics (page w) with
         | Some _ => if connected w then Normal tt else Abrupt
         | None => Normal tt
         end.
Proof.
  unfold handleUserScroll, bind, get_state, get_page. simpl.
  destruct (negb (ScrollState.enableSync (state w))
            || ScrollState.isSyncing (state w)); [reflexivity|].
  destruct (calculateScrollMetrics (page w)); [|reflexivity].
  unfold sendScrollEvent, runtime_sendMessage. simpl.
  destruct (connected w); reflexivity.
Qed.

(** Every execution is one of the shapes above: it ends with the clear of
    the flag, after at most one send, or it ends at a send that throws. *)
Lemma handleUserScroll_cases (w : World) :
  (exists pre,
     exec handleUserScroll w
     = mkWorld (connected w)
               (ScrollState.set_isScrollScheduled false (state w)) (page w)
               (clock w) (timers w) (frames w)
               (trace w ++ pre ++ [SetIsScrollScheduled false])
     /\ (pre = [] \/ exists m, pre = [SendMessage (SCROLL_EVENT m)]))
  \/ (exists m,
        connected w = false
        /\ exec handleUserScroll w
           = mkWorld (connected w) (state w) (page w) (clock w) (timers w)
                     (frames w) (trace w ++ [SendMessage (SCROLL_EVENT m)])).
Proof.
  destruct (negb (ScrollState.enableSync (state w))
            || ScrollState.isSyncing (state w)) eqn:G.
  - left. exists []. split; [apply handleUserScroll_abort, G | now left].
  - destruct (calculateScrollMetrics (page w)) as [m|] eqn:M.
    + destruct (connected w) eqn:C.
      * left. exists [SendMessage (SCROLL_EVENT m)].
        split; [rewrite <- C; apply handleUserScroll_emit; assumption
               | right; now exists m].
      * right. exists m. split; [reflexivity|].
        rewrite <- C. apply handleUserScroll_throws; assumption.
    + left. exists [].
      split; [apply handleUserScroll_no_scroll; assumption | now left].
Qed.

(** C2. Feedback suppression: in every observer state where [isSyncing] is
    true, running the scheduled emission handler [handleUserScroll] sends no
    message: the messages sent so far are unchanged, and the only thing the
    handler does is clear [isScrollScheduled]. *)
Theorem handleUserScroll_silent_while_syncing (w : World) :
  ScrollState.isSyncing (state w) = true ->
  sent (trace (exec handleUserScroll w)) = sent (trace w)
  /\ trace (exec handleUserScroll w) = trace w ++ [SetIsScrollScheduled false].
Proof.
  intros H. rewrite handleUserScroll_abort.
  - simpl. rewrite sent_app. simpl. rewrite app_nil_r. split; reflexivity.
  - rewrite H. apply orb_true_r.
Qed.

(** C3. With R = scrollHeight - clientHeight and y = scrollY: when R > 0 the
    metrics are exactly {percentage = y / R, pixel = y}, and an enabled
    observer that is not applying a sync emits exactly that SCROLL_EVENT;
    when R <= 0 there are no metrics and the handler sends nothing, whatever
    y and the observer's state are. *)
Theorem calculateScrollMetrics_range (pg : Page) :
  ((0 <? scrollable_range pg)%float = true ->
     calculateScrollMetrics pg
     = Some (ScrollMetrics.mk (scrollY pg / scrollable_range pg)%float
                              (scrollY pg))
     /\ forall w, page w = pg ->
          ScrollState.enableSync (state w) = true ->
          ScrollState.isSyncing (state w) = false ->
          sent (trace (exec handleUserScroll w))
          = sent (trace w)
            ++ [SCROLL_EVENT
                  (ScrollMetrics.mk (scrollY pg / scrollable_range pg)%float
                                    (scrollY pg))])
  /\ ((scrollable_range pg <=? 0)%float = true ->
        calculateScrollMetrics pg = None
        /\ forall w, page w = pg ->
             sent (trace (exec handleUserScroll w)) = sent (trace w)).
Proof.
  split.
  - intros H. apply positive_not_leb_zero in H.
    assert (M : calculateScrollMetrics pg
                = Some (ScrollMetrics.mk
                          (scrollY pg / scrollable_range pg)%float
                          (scrollY pg))).
    { unfold calculateScrollMetrics. fold (scrollable_range pg).
      rewrite H. reflexivity. }
    split; [exact M|].
    intros w Hp He Hs. subst pg.
    assert (G : negb (ScrollState.enableSync (state w))
                || ScrollState.isSyncing (state w) = false)
      by (rewrite He, Hs; reflexivity).
    destruct (connected w) eqn:C.
    + rewrite (handleUserScroll_emit w _ G M C).
      simpl. rewrite sent_app. reflexivity.
    + rewrite (handleUserScroll_throws w _ G M C).
      simpl. rewrite sent_app. reflexivity.
  - intros H.
    assert (M : calculateScrollMetrics pg = None).
    { unfold calculateScrollMetrics. fold (scrollable_range pg).
      rewrite H. reflexivity. }
    split; [exact M|].
    intros w Hp. subst pg.
    destruct (negb (ScrollState.enableSync (state w))
              || ScrollState.isSyncing (state w)) eqn:G.
    + rewrite (handleUserScroll_abort w G).
      simpl. rewrite sent_app. simpl. now rewrite app_nil_r.
    + rewrite (handleUserScroll_no_scroll w G M).
      simpl. rewrite sent_app. simpl. now rewrite app_nil_r.
Qed.

(** C2, at a tab that is applying a sync command. *)
Lemma handleUserScroll_silent_while_syncing_witness :
  sent (trace (exec handleUserScroll Examples.syncing_world)) = []
  /\ trace (exec handleUserScroll Examples.syncing_world)
     = [SetIsScrollScheduled false].
Proof.
  apply (handleUserScroll_silent_while_syncing Examples.syncing_world).
  reflexivity.
Defined.

(** C3, at a page of range 1000 scrolled to 250 and at a page of range 0. *)
Lemma calculateScrollMetrics_range_witness :
  calculateScrollMetrics Examples.long_page
  = Some (ScrollMetrics.mk 0.25 250)
  /\ calculateScrollMetrics Examples.short_page = None.
Proof.
  split.
  - apply (proj1 (calculateScrollMetrics_range Examples.long_page)).
    reflexivity.
  - apply (proj2 (calculateScrollMetrics_range Examples.short_page)).
    reflexivity.
Defined.

(** C4. The mode is the command's [syncMode] when it is present (one of
    the two modes), otherwise the observer's cached mode.  In percentage
    mode the target is [command.percentage * (scrollHeight - clientHeight)]
    of the receiving page; in pixel mode it is [command.pixel] as received,
    whatever the receiving page's range is. *)
Theorem calculateTargetScrollPosition_modes
    (st : ScrollState.t) (pg : Page) (command : SyncCommand.t) :
  (forall m, SyncCommand.syncMode command = Some m ->
             m = "percentage" \/ m = "pixel") ->
  let mode := match SyncCommand.syncMode command with
              | Some m => m
              | None => ScrollState.syncMode st
              end in
  (mode = "percentage" ->
     calculateTargetScrollPosition st pg command
     = (SyncCommand.percentage command * scrollable_range pg)%float)
  /\ (mode = "pixel" ->
       calculateTargetScrollPosition st pg command
       = SyncCommand.pixel command).
Proof.
  intros V mode.
  assert (E : js_or (SyncCommand.syncMode command) (ScrollState.syncMode st)
              = mode).
  { unfold js_or, mode. destruct (SyncCommand.syncMode command) as [m|].
    - destruct (V m eq_refl) as [-> | ->]; reflexivity.
    - reflexivity. }
  unfold calculateTargetScrollPosition. rewrite E.
  split; intros ->; reflexivity.
Qed.

(** C4, at a page of range 2000: the percentage command 0.25 gives 500 and
    the pixel command 250 gives 250. *)
Lemma calculateTargetScrollPosition_modes_witness :
  calculateTargetScrollPosition ScrollState.initial Examples.longer_page
                                Examples.quarter = 500%float
  /\ calculateTargetScrollPosition ScrollState.initial Examples.longer_page
                                   Examples.quarter_pixel = 250%float.
Proof.
  split.
  - apply (proj1 (calculateTargetScrollPosition_modes
                    ScrollState.initial Examples.longer_page Examples.quarter
                    ltac:(intros m [= <-]; left; reflexivity))).
    reflexivity.
  - apply (proj2 (calculateTargetScrollPosition_modes
                    ScrollState.initial Examples.longer_page
                    Examples.quarter_pixel
                    ltac:(intros m [= <-]; right; reflexivity))).
    reflexivity.
Defined.

(** C5, as stated, fails: on a scrollable page with sync enabled the handler
    sends the SCROLL_EVENT first and clears [isScrollScheduled] after it. *)
Lemma handleUserScroll_flag_not_cleared_first :
  trace (exec handleUserScroll Examples.scheduled_world)
  = [SendMessage (SCROLL_EVENT (ScrollMetrics.mk 0.25 250));
     SetIsScrollScheduled false]
  /\ ~ clears_flag_first Examples.scheduled_world.
Proof.
  split; [reflexivity|].
  intros [rest H]. vm_compute in H. discriminate H.
Qed.

(** C5, amended. In every execution of [handleUserScroll] that returns,
    the write [isScrollScheduled = false] is the last thing done: it is the
    only action when sync is off, when a sync is being applied or when the
    page has no scroll, and it follows the send of the SCROLL_EVENT
    otherwise. *)
Theorem handleUserScroll_clears_flag_last (w : World) :
  fst (handleUserScroll w) = Normal tt ->
  trace (exec handleUserScroll w)
  = trace w
    ++ (if negb (ScrollState.enableSync (state w))
           || ScrollState.isSyncing (state w)
        then []
        else match calculateScrollMetrics (page w) with
             | Some m => [SendMessage (SCROLL_EVENT m)]
             | None => []
             end)
    ++ [SetIsScrollScheduled false].
Proof.
  rewrite handleUserScroll_completion.
  destruct (negb (ScrollState.enableSync (state w))
            || ScrollState.isSyncing (state w)) eqn:G.
  - intros _. rewrite (handleUserScroll_abort w G). reflexivity.
  - destruct (calculateScrollMetrics (page w)) as [m|] eqn:M.
    + destruct (connected w) eqn:C; [intros _|discriminate].
      rewrite (handleUserScroll_emit w m G M C). reflexivity.
    + intros _. rewrite (handleUserScroll_no_scroll w G M). reflexivity.
Qed.

(** C5, amended, on a scrollable page with sync enabled. *)
Lemma handleUserScroll_clears_flag_last_witness :
  trace (exec handleUserScroll Examples.scheduled_world)
  = [SendMessage (SCROLL_EVENT (ScrollMetrics.mk 0.25 250));
     SetIsScrollScheduled false].
Proof.
  apply (handleUserScroll_clears_flag_last Examples.scheduled_world).
  reflexivity.
Defined.

(** When [handleUserScroll] returns, it returns with
    [isScrollScheduled = false] and the queue of frame callbacks as it
    was, so the next scroll notification schedules the handler again. *)
Lemma handleUserScroll_returns_unscheduled (w : World) :
  fst (handleUserScroll w) = Normal tt ->
  ScrollState.isScrollScheduled (state (exec handleUserScroll w)) = false
  /\ frames (exec handleUserScroll w) = frames w
  /\ frames (exec on_scroll (exec handleUserScroll w))
     = frames w ++ [CbHandleUserScroll].
Proof.
  intros R.
  destruct (handleUserScroll_cases w) as [[pre [E _]] | [m [C E]]].
  - rewrite E. repeat split; reflexivity.
  - exfalso. rewrite handleUserScroll_completion in R.
    assert (T : trace (exec handleUserScroll w)
                = trace w ++ [SendMessage (SCROLL_EVENT m)])
      by (rewrite E; reflexivity).
    destruct (negb (ScrollState.enableSync (state w))
              || ScrollState.isSyncing (state w)) eqn:G.
    + rewrite (handleUserScroll_abort w G) in T. simpl in T.
      apply app_inv_head in T. discriminate T.
    + destruct (calculateScrollMetrics (page w)) as [m'|] eqn:M.
      * rewrite C in R. discriminate R.
      * rewrite (handleUserScroll_no_scroll w G M) in T. simpl in T.
        apply app_inv_head in T. discriminate T.
Qed.

(** C10, on the code: the extension has been reloaded while the tab stays
    open, so the script's extension context is invalid; sync is enabled,
    no sync is being applied and the page scrolls.  The frame runs
    [handleUserScroll]; [chrome.runtime.sendMessage] throws, the handler
    ends at the send and [isScrollScheduled] stays true with no callback
    queued.  From then on a scroll notification changes nothing: the
    handler is never requested again. *)
Theorem throwing_send_leaves_flag_set :
  let w := exec animation_frame Examples.orphaned_world in
  fst (handleUserScroll Examples.orphaned_world) = Abrupt
  /\ trace w = [SendMessage (SCROLL_EVENT (ScrollMetrics.mk 0.25 250))]
  /\ ScrollState.isScrollScheduled (state w) = true
  /\ frames w = []
  /\ exec on_scroll w = w
  /\ exec (Timeline.run [Timeline.Scroll; Timeline.Frame;
                         Timeline.Scroll; Timeline.Frame]) w
     = w
  /\ exec (Timeline.run [Timeline.Scroll; Timeline.Invalidate])
          (initial_world Examples.long_page)
     = mkWorld false (state Examples.orphaned_world) Examples.long_page 0 []
               [CbHandleUserScroll]
               [SetIsScrollScheduled true;
                RequestAnimationFrame CbHandleUserScroll].
Proof.
  repeat split; reflexivity.
Qed.

(** C7. [handleSettingsUpdateMessage] writes [enableSync] exactly when the
    payload carries it and [syncMode] exactly when the payload carries it;
    an absent field keeps its current value, no other field of the state is
    touched, and the writes of the present fields are all the handler does.
    In particular [{enableSync: false}] alone leaves [syncMode] unchanged. *)
Theorem handleSettingsUpdateMessage_partial
    (payload : SettingsUpdate.t) (w : World) :
  let st := state w in
  let st' := state (exec (handleSettingsUpdateMessage payload) w) in
  ScrollState.enableSync st'
  = match SettingsUpdate.enableSync payload with
    | Some b => b
    | None => ScrollState.enableSync st
    end
  /\ ScrollState.syncMode st'
     = match SettingsUpdate.syncMode payload with
       | Some m => m
       | None => ScrollState.syncMode st
       end
  /\ ScrollState.isSyncing st' = ScrollState.isSyncing st
  /\ ScrollState.isScrollScheduled st' = ScrollState.isScrollScheduled st
  /\ ScrollState.syncTimeout st' = ScrollState.syncTimeout st
  /\ trace (exec (handleSettingsUpdateMessage payload) w)
     = trace w
       ++ match SettingsUpdate.enableSync payload with
          | Some b => [SetEnableSync b]
          | None => []
          end
       ++ match SettingsUpdate.syncMode payload with
          | Some m => [SetSyncMode m]
          | None => []
          end
  /\ ScrollState.syncMode
       (state (exec (handleIncomingMessage
                       (SETTINGS_UPDATED (SettingsUpdate.mk (Some false) None)))
                    w))
     = ScrollState.syncMode st.
Proof.
  destruct payload as [[b|] [m|]]; repeat split;
    try reflexivity; simpl; rewrite <- ?app_assoc, ?app_nil_r; reflexivity.
Qed.

(** X9. A sync command that arrives alone keeps [isSyncing] true until
    [syncTimeout] after its arrival, and false from then on. *)
Lemma single_command_window
    (w : World) (command : SyncCommand.t) (t t' : Z) :
  ScrollState.enableSync (state w) = true ->
  timers w = [] ->
  let w' := exec (advance_to t')
                 (exec (receive_at t (SYNC_SCROLL command)) w) in
  (t' < Z.max (clock w) t + ScrollState.syncTimeout (state w) ->
     ScrollState.isSyncing (state w') = true)
  /\ (Z.max (clock w) t + ScrollState.syncTimeout (state w) <= t' ->
       ScrollState.isSyncing (state w') = false).
Proof.
  intros He Ht. destruct w as [cn st pg c tm fr tr]. simpl in *. subst tm.
  unfold exec, receive_at, advance_to, bind. simpl.
  unfold handleSyncScrollMessage, bind, get_state. simpl. rewrite He. simpl.
  unfold due. simpl.
  split; intros H.
  - apply Z.leb_gt in H. rewrite H. reflexivity.
  - apply Z.leb_le in H. rewrite H. reflexivity.
Qed.

(** Two sync commands closer than [syncTimeout]: from the first command's
    deadline until the second command's own deadline, [isSyncing] is false,
    because the first command's timer is never cancelled. *)
Lemma stale_timer_ends_window
    (w : World) (c1 c2 : SyncCommand.t) (t1 t2 t' : Z) :
  ScrollState.enableSync (state w) = true ->
  timers w = [] ->
  clock w <= t1 <= t2 ->
  t2 < t1 + ScrollState.syncTimeout (state w) ->
  t1 + ScrollState.syncTimeout (state w) <= t'
  < t2 + ScrollState.syncTimeout (state w) ->
  let w' := exec (advance_to t')
              (exec (receive_at t2 (SYNC_SCROLL c2))
                 (exec (receive_at t1 (SYNC_SCROLL c1)) w)) in
  ScrollState.isSyncing (state w') = false
  /\ timers w' = [(t2 + ScrollState.syncTimeout (state w), CbClearSyncing)].
Proof.
  intros He Ht [Hc H12] H2 [H1' H2'].
  destruct w as [cn st pg c tm fr tr]. simpl in *. subst tm.
  unfold exec, receive_at, advance_to, bind. simpl.
  unfold handleSyncScrollMessage, bind, get_state. simpl. rewrite He. simpl.
  unfold due. simpl.
  rewrite (Z.max_r c t1) by lia.
  replace (t1 + ScrollState.syncTimeout st <=? t2) with false
    by (symmetry; apply Z.leb_gt; lia).
  simpl. rewrite He. simpl.
  rewrite (Z.max_r t1 t2) by lia.
  replace (t1 + ScrollState.syncTimeout st <=? t') with true
    by (symmetry; apply Z.leb_le; lia).
  replace (t2 + ScrollState.syncTimeout st <=? t') with false
    by (symmetry; apply Z.leb_gt; lia).
  simpl. split; reflexivity.
Qed.

(** C6, on the code: two sync commands arrive at 0 ms and at 30 ms.  At
    60 ms, which is 30 ms after the second command and so inside its 50 ms
    delay, [isSyncing] is already false: the first command's timer fired at
    50 ms, while the second command's timer (deadline 80 ms) is still
    pending. *)
Theorem second_command_window_cut_short :
  let w := exec Examples.two_commands
                (initial_world Examples.long_page) in
  clock w = 60
  /\ 60 < 30 + ScrollState.syncTimeout (state w)
  /\ timers w = [(80, CbClearSyncing)]
  /\ ScrollState.isSyncing (state w) = false.
Proof.
  vm_compute. repeat split; reflexivity.
Qed.

End ObserverProperties.

(** ** Properties of the relay router *)

Section RouterProperties.
Import JS Background.

Lemma strict_eq_eq (a b : value) : strict_eq a b = true -> a = b.
Proof.
  destruct a, b; simpl; try discriminate; intros H.
  - reflexivity.
  - apply Z.eqb_eq in H. now subst.
  - apply String.eqb_eq in H. now subst.
  - apply Nat.eqb_eq in H. now subst.
Qed.

(** One turn of the loop sends to a candidate and swallows a rejection; it
    does nothing for the sender itself and for the other tabs. *)
Lemma relay_loop (b : Browser) (payload : ScrollMetrics.t)
    (sender : Sender.t) (st : Tab.t) (key : value) (mode : string)
    (tabs : list Tab.t) :
  Sender.tab sender = Some st ->
  for_of tabs (fun tab =>
    bind (sender_tab sender) (fun st =>
      if strict_eq (Tab.id tab) (Tab.id st) then ret tt
      else if isInSameSplitView key (Tab.splitViewId tab) then
        try_catch
          (tabs_sendMessage b (Tab.id tab) (sync_scroll payload mode))
          (ret tt)
      else ret tt))
  = (map (attempt_on b payload mode) (filter (candidate st key) tabs), Ok tt).
Proof.
  intros Hs. induction tabs as [|t tabs IH]; [reflexivity|].
  cbn [for_of filter map]. rewrite IH. clear IH.
  unfold sender_tab. rewrite Hs.
  change (candidate st key t)
    with (negb (strict_eq (Tab.id t) (Tab.id st))
          && isInSameSplitView key (Tab.splitViewId t)).
  unfold tabs_sendMessage.
  cbv beta iota delta [bind ret try_catch].
  destruct (strict_eq (Tab.id t) (Tab.id st)); [reflexivity|].
  destruct (isInSameSplitView key (Tab.splitViewId t)); [|reflexivity].
  destruct (listening b (Tab.id t)) eqn:L;
    cbn [negb andb map app]; unfold attempt_on; rewrite L; reflexivity.
Qed.

Lemma relay_attempts (b : Browser) (payload : ScrollMetrics.t)
    (sender : Sender.t) (st : Tab.t) (key : value) (mode : string)
    (tabs : list Tab.t) :
  Sender.tab sender = Some st ->
  tabs_query b (Tab.windowId st) = Ok tabs ->
  relayScrollEventToTabs b payload sender key mode
  = (map (attempt_on b payload mode) (filter (candidate st key) tabs), Ok tt).
Proof.
  intros Hs Hq. unfold relayScrollEventToTabs.
  unfold sender_tab at 1. rewrite Hs. unfold bind at 1, ret at 1.
  unfold lift. rewrite Hq. unfold bind at 1.
  rewrite (relay_loop b payload sender st key mode tabs Hs).
  reflexivity.
Qed.

Lemma relay_never_throws (b : Browser) (payload : ScrollMetrics.t)
    (sender : Sender.t) (key : value) (mode : string) :
  outcome (relayScrollEventToTabs b payload sender key mode) = Ok tt.
Proof.
  destruct (Sender.tab sender) as [st|] eqn:Hs.
  - destruct (tabs_query b (Tab.windowId st)) as [tabs|] eqn:Hq.
    + rewrite (relay_attempts b payload sender st key mode tabs Hs Hq).
      reflexivity.
    + unfold relayScrollEventToTabs, sender_tab at 1. rewrite Hs.
      unfold bind at 1, ret at 1, lift. rewrite Hq. reflexivity.
  - unfold relayScrollEventToTabs, sender_tab at 1. rewrite Hs. reflexivity.
Qed.

(** C8. The relay never throws, whatever the browser does.  When the window's
    tabs are listed, the sync command is sent once to every tab that is not
    the sender and that [isInSameSplitView] accepts, in the order of the
    list, whether or not earlier sends were rejected; so every such tab that
    is listening receives its command in the same pass. *)
Theorem relay_tolerates_failed_deliveries (b : Browser)
    (payload : ScrollMetrics.t) (sender : Sender.t) (key : value)
    (mode : string) :
  let run := relayScrollEventToTabs b payload sender key mode in
  outcome run = Ok tt
  /\ forall st tabs,
       Sender.tab sender = Some st ->
       tabs_query b (Tab.windowId st) = Ok tabs ->
       attempts run
       = map (attempt_on b payload mode) (filter (candidate st key) tabs)
       /\ forall tab,
            In tab tabs ->
            candidate st key tab = true ->
            listening b (Tab.id tab) = true ->
            In (mkAttempt (Tab.id tab) (sync_scroll payload mode) true)
               (attempts run).
Proof.
  intros run. split; [apply relay_never_throws|].
  intros st tabs Hs Hq. unfold run.
  rewrite (relay_attempts b payload sender st key mode tabs Hs Hq).
  split; [reflexivity|].
  intros tab Hin Hc Hl. unfold attempts. simpl.
  apply in_map_iff. exists tab. split.
  - unfold attempt_on. rewrite Hl. reflexivity.
  - apply filter_In. split; assumption.
Qed.

(** C8, in a split view of three tabs where tab 2 rejects the send: tab 3,
    after it in the list, still receives the command. *)
Lemma relay_tolerates_failed_deliveries_witness :
  In (mkAttempt (number 3) (sync_scroll Examples.scrolled "percentage") true)
     (attempts (relayScrollEventToTabs Examples.tab2_gone Examples.scrolled
                  (Sender.mk (Some Examples.split1)) (number 3)
                  "percentage")).
Proof.
  apply (proj2 (relay_tolerates_failed_deliveries Examples.tab2_gone
                  Examples.scrolled (Sender.mk (Some Examples.split1))
                  (number 3) "percentage")
               Examples.split1
               [Examples.split1; Examples.split2; Examples.split3]
               eq_refl eq_refl)
    with (tab := Examples.split3).
  - simpl. auto.
  - reflexivity.
  - reflexivity.
Defined.

(** X26. [handleScrollEvent] never throws, whatever the storage, the
    sender, the tabs and the deliveries do: every failure on the way is
    caught and dropped. *)
Lemma handleScrollEvent_never_throws (b : Browser)
    (payload : ScrollMetrics.t) (sender : Sender.t) :
  outcome (handleScrollEvent b payload sender) = Ok tt.
Proof.
  unfold handleScrollEvent.
  destruct (getSettings b) as [l [settings|]]; [|reflexivity].
  unfold bind at 1.
  destruct (Settings.enableSync settings); [|reflexivity]. cbn [negb].
  destruct (Sender.tab sender) as [st|] eqn:Hs;
    unfold sender_tab; rewrite Hs; [|reflexivity].
  unfold bind at 1, ret at 1, lift.
  destruct (getSplitViewId st) as [key|]; [|reflexivity].
  unfold bind at 1.
  pose proof (relay_never_throws b payload sender key
                (Settings.syncMode settings)) as H.
  destruct (relayScrollEventToTabs b payload sender key
              (Settings.syncMode settings)) as [l' r].
  unfold outcome in H. simpl in H. subst r. reflexivity.
Qed.

(** The key of a tab is [undefined] only when [splitViewId] and [groupId]
    are undefined and the conversion of [index] throws: an absent [index]
    gives the key "pos-undefined". *)
Lemma getSplitViewId_undefined (tab : Tab.t) :
  getSplitViewId tab = Ok undefined ->
  Tab.splitViewId tab = undefined /\ Tab.groupId tab = undefined
  /\ exists k, Tab.index tab = symbol k.
Proof.
  unfold getSplitViewId.
  destruct (Tab.splitViewId tab); simpl; try discriminate.
  destruct (Tab.groupId tab); simpl; try discriminate.
  destruct (Tab.index tab); simpl; try discriminate.
  intros _. repeat split. eexists. reflexivity.
Qed.

(** The loop tests the raw [splitViewId] of a tab, not its key: a tab
    without [splitViewId] is never a candidate of a sender whose key is
    defined, whatever its [groupId] and [index]. *)
Lemma candidate_needs_splitViewId (st tab : Tab.t) (key : value) :
  key <> undefined ->
  Tab.splitViewId tab = undefined ->
  candidate st key tab = false.
Proof.
  intros Hk Hu. unfold candidate, isInSameSplitView. rewrite Hu.
  destruct key; [contradiction| | |]; simpl; apply andb_false_r.
Qed.

(** With a defined first argument, [isInSameSplitView] holds only of that
    same value. *)
Lemma isInSameSplitView_defined (key v : value) :
  key <> undefined -> isInSameSplitView key v = true -> v = key.
Proof.
  intros Hk H. symmetry. apply strict_eq_eq.
  destruct key; [contradiction| | |];
    destruct v; try (simpl in H; discriminate H); exact H.
Qed.

(** The half of the grouping rule that the code keeps: a tab to which the
    command is sent has the sender's key, when that key is defined. *)
Lemma relayed_tabs_share_sender_key (b : Browser)
    (payload : ScrollMetrics.t) (sender : Sender.t) (st : Tab.t)
    (key : value) (mode : string) (tabs : list Tab.t) (a : attempt) :
  Sender.tab sender = Some st ->
  tabs_query b (Tab.windowId st) = Ok tabs ->
  key <> undefined ->
  In a (attempts (relayScrollEventToTabs b payload sender key mode)) ->
  exists tab, In tab tabs /\ target a = Tab.id tab
              /\ Tab.id tab <> Tab.id st
              /\ getSplitViewId tab = Ok key.
Proof.
  intros Hs Hq Hk Hin.
  rewrite (relay_attempts b payload sender st key mode tabs Hs Hq) in Hin.
  unfold attempts in Hin. simpl in Hin.
  apply in_map_iff in Hin. destruct Hin as [tab [<- Hf]].
  apply filter_In in Hf. destruct Hf as [Hin Hc].
  exists tab. split; [assumption|]. split; [reflexivity|].
  unfold candidate in Hc. apply andb_true_iff in Hc. destruct Hc as [Hid Hv].
  split.
  - intros E. rewrite E in Hid.
    assert (R : forall v, strict_eq v v = true).
    { intros [|n|r|k]; simpl;
        [reflexivity | apply Z.eqb_refl | apply String.eqb_refl
        | apply Nat.eqb_refl]. }
    rewrite R in Hid. discriminate Hid.
  - apply (isInSameSplitView_defined key _ Hk) in Hv.
    unfold getSplitViewId. rewrite Hv.
    destruct key; [contradiction| | |]; reflexivity.
Qed.

(** C1, on the code: two tabs of one window are in tab group 5 and the
    browser reports no [splitViewId].  Both resolve to the key "group-5",
    sync is enabled and both tabs are listening, but when tab 1 scrolls no
    command is sent to tab 2: the loop compares the sender's key with
    [tab.splitViewId], which is undefined. *)
Theorem same_group_key_not_relayed :
  let b := Examples.all_listening [Examples.grouped1; Examples.grouped2] in
  getSettings b = ([], Ok (Settings.mk true "percentage"))
  /\ getSplitViewId Examples.grouped1 = Ok (str "group-5")
  /\ getSplitViewId Examples.grouped2 = Ok (str "group-5")
  /\ isInSameSplitView (str "group-5")
                       (Tab.splitViewId Examples.grouped2) = false
  /\ handleScrollEvent b Examples.scrolled
                       (Sender.mk (Some Examples.grouped1))
     = ([], Ok tt).
Proof.
  repeat split; reflexivity.
Qed.

(** C9, on the code: on a sender without [splitViewId], [groupId] and
    [index] the template literal gives the key "pos-undefined", not
    [undefined]; with that key no command is sent to the other tab of the
    window.  Had the key been [undefined], the relay would have sent the
    command to the other tab. *)
Theorem absent_signals_not_broadcast :
  let b := Examples.all_listening [Examples.bare1; Examples.bare2] in
  let sender := Sender.mk (Some Examples.bare1) in
  getSettings b = ([], Ok (Settings.mk true "percentage"))
  /\ getSplitViewId Examples.bare1 = Ok (str "pos-undefined")
  /\ handleScrollEvent b Examples.scrolled sender = ([], Ok tt)
  /\ relayScrollEventToTabs b Examples.scrolled sender undefined "percentage"
     = ([mkAttempt (number 2)
                   (sync_scroll Examples.scrolled "percentage") true],
        Ok tt).
Proof.
  repeat split; reflexivity.
Qed.

(** End to end, in a split view of three tabs: tab 1 (range 1000) is
    scrolled to 250 and emits 0.25; the router sends the command to tabs 2
    and 3; tab 2 rejects it; tab 3 (range 2000) jumps to 500. *)
Example split_view_end_to_end :
  Content.sent
    (Content.trace
       (Content.exec
          (Content.bind Content.on_scroll (fun _ => Content.animation_frame))
          (Content.initial_world Examples.long_page)))
  = [SCROLL_EVENT Examples.scrolled]
  /\ handleScrollEvent Examples.tab2_gone Examples.scrolled
                       (Sender.mk (Some Examples.split1))
     = ([mkAttempt (number 2)
                   (sync_scroll Examples.scrolled "percentage") false;
         mkAttempt (number 3)
                   (sync_scroll Examples.scrolled "percentage") true],
        Ok tt)
  /\ Content.trace
       (Content.exec
          (Content.handleIncomingMessage
             (sync_scroll Examples.scrolled "percentage"))
          (Content.initial_world Examples.longer_page))
     = [Content.SetIsSyncing true; Content.ScrollTo 500;
        Content.SetTimeout Content.CbClearSyncing 50].
Proof.
  repeat split; reflexivity.
Qed.

End RouterProperties.

(** ** The scroll observer over whole runs of events *)

Section TimelineProperties.
Import Content Timeline.
Local Open Scope obs_scope.

(** What follows a dispatched callback runs in the world the callback
    leaves, whether the callback returned or threw. *)
Lemma exec_seq {A} (c : Obs A) (k : Obs unit) (w : World) :
  exec (bind (dispatch c) (fun _ => k)) w = exec k (exec c w).
Proof.
  reflexivity.
Qed.

Lemma exec_run_cons (e : event) (evs : list event) (w : World) :
  exec (run (e :: evs)) w = exec (run evs) (exec (handle e) w).
Proof.
  reflexivity.
Qed.

Lemma exec_run_app (evs evs' : list event) (w : World) :
  exec (run (evs ++ evs')) w = exec (run evs') (exec (run evs) w).
Proof.
  revert w. induction evs as [|e evs IH]; intros w; [reflexivity|].
  rewrite <- app_comm_cons, !exec_run_cons. apply IH.
Qed.

Lemma scrolled_to_app (l l' : list action) :
  scrolled_to (l ++ l') = scrolled_to l ++ scrolled_to l'.
Proof.
  induction l as [|a l IH]; simpl; [reflexivity|].
  destruct a; simpl; rewrite IH; reflexivity.
Qed.

(** *** The scroll listener *)

Lemma on_scroll_scheduled (w : World) :
  ScrollState.isScrollScheduled (state w) = true -> exec on_scroll w = w.
Proof.
  intros H. unfold exec, on_scroll, bind, get_state. simpl. rewrite H.
  reflexivity.
Qed.

Lemma on_scroll_unscheduled (w : World) :
  ScrollState.isScrollScheduled (state w) = false ->
  exec on_scroll w
  = mkWorld (connected w)
            (ScrollState.set_isScrollScheduled true (state w)) (page w)
            (clock w) (timers w) (frames w ++ [CbHandleUserScroll])
            (trace w ++ [SetIsScrollScheduled true;
                         RequestAnimationFrame CbHandleUserScroll]).
Proof.
  intros H. unfold exec, on_scroll, bind, get_state. simpl. rewrite H.
  simpl. rewrite <- app_assoc. reflexivity.
Qed.

Lemma on_scroll_sets_flag (w : World) :
  ScrollState.isScrollScheduled (state (exec on_scroll w)) = true.
Proof.
  destruct (ScrollState.isScrollScheduled (state w)) eqn:H.
  - rewrite on_scroll_scheduled; assumption.
  - rewrite on_scroll_unscheduled by assumption. reflexivity.
Qed.

(** X1. Coalescing: a burst of scroll notifications does what its first
    notification does.  However many notifications arrive before the next
    animation frame, the handler is requested at most once. *)
Theorem scroll_burst_coalesces (n : nat) (w : World) :
  exec (run (repeat Scroll (S n))) w = exec on_scroll w.
Proof.
  induction n as [|n IH].
  - simpl repeat. rewrite exec_run_cons. reflexivity.
  - replace (repeat Scroll (S (S n))) with (repeat Scroll (S n) ++ [Scroll])
      by (rewrite <- repeat_cons; reflexivity).
    rewrite exec_run_app, IH, exec_run_cons.
    change (exec on_scroll (exec on_scroll w) = exec on_scroll w).
    apply on_scroll_scheduled, on_scroll_sets_flag.
Qed.

(** *** What each handler does to the world *)

Lemma handleSyncScrollMessage_disabled (p : SyncCommand.t) (w : World) :
  ScrollState.enableSync (state w) = false ->
  exec (handleSyncScrollMessage p) w = w.
Proof.
  intros H. unfold exec, handleSyncScrollMessage, bind, get_state. simpl.
  rewrite H. reflexivity.
Qed.

Lemma handleSyncScrollMessage_enabled (p : SyncCommand.t) (w : World) :
  ScrollState.enableSync (state w) = true ->
  exec (handleSyncScrollMessage p) w
  = mkWorld (connected w)
            (ScrollState.set_isSyncing true (state w)) (page w) (clock w)
            (timers w
             ++ [(clock w + ScrollState.syncTimeout (state w),
                  CbClearSyncing)])
            (frames w)
            (trace w
             ++ [SetIsSyncing true;
                 ScrollTo (calculateTargetScrollPosition
                             (ScrollState.set_isSyncing true (state w))
                             (page w) p);
                 SetTimeout CbClearSyncing
                            (ScrollState.syncTimeout (state w))]).
Proof.
  intros H. unfold exec, handleSyncScrollMessage, bind, get_state, get_page.
  simpl. rewrite H. simpl. rewrite <- !app_assoc. reflexivity.
Qed.

(** Handlers that only write [enableSync] and [syncMode]. *)
Lemma handleSettingsUpdateMessage_frame
    (payload : SettingsUpdate.t) (w : World) :
  settings_step w (exec (handleSettingsUpdateMessage payload) w).
Proof.
  destruct payload as [[b|] [m|]]; split; try reflexivity; simpl;
    rewrite ?sent_app, ?scrolled_to_app; simpl;
    rewrite ?app_nil_r; reflexivity.
Qed.

Lemma loadSettings_callback_frame
    (result : option SettingsUpdate.t) (w : World) :
  settings_step w (exec (loadSettings_callback result) w).
Proof.
  destruct result as [[[b|] m]|]; split; try reflexivity; simpl;
    rewrite ?sent_app, ?scrolled_to_app; simpl;
    rewrite ?app_nil_r; reflexivity.
Qed.

(** Running timers: each one clears [isSyncing]. *)
Lemma run_clear_callbacks (tms : list (Z * callback)) (w : World) :
  Forall (fun tm => snd tm = CbClearSyncing) tms ->
  exec (run_callbacks (map snd tms)) w
  = mkWorld (connected w)
            (match tms with
             | [] => state w
             | _ :: _ => ScrollState.set_isSyncing false (state w)
             end)
            (page w) (clock w) (timers w) (frames w)
            (trace w ++ repeat (SetIsSyncing false) (length tms)).
Proof.
  revert w. induction tms as [|tm tms IH]; intros w H.
  - simpl. rewrite app_nil_r. destruct w; reflexivity.
  - inversion H as [|? ? Hc Hr]; subst.
    cbn [map run_callbacks]. rewrite Hc. rewrite exec_seq.
    rewrite (IH _ Hr). cbn [run_callback].
    unfold exec, assign_isSyncing, perform. simpl.
    rewrite <- app_assoc. simpl.
    destruct tms; reflexivity.
Qed.

Lemma filter_none_due (t : Z) (tms : list (Z * callback)) :
  filter (due t) tms = [] ->
  filter (fun tm => negb (due t tm)) tms = tms.
Proof.
  induction tms as [|tm tms IH]; simpl; [reflexivity|].
  destruct (due t tm); simpl; [discriminate|].
  intros H. rewrite (IH H). reflexivity.
Qed.

Lemma Forall_filter {A} (P : A -> Prop) (f : A -> bool) (l : list A) :
  Forall P l -> Forall P (filter f l).
Proof.
  intros H. apply Forall_forall. intros x Hx.
  apply filter_In in Hx. destruct Hx as [Hx _].
  rewrite Forall_forall in H. apply H, Hx.
Qed.

(** *** The invariant *)

Lemma initial_invariant (pg : Page) : invariant (initial_world pg).
Proof.
  split; simpl.
  - reflexivity.
  - constructor.
  - discriminate.
  - left. reflexivity.
  - discriminate.
Qed.

Lemma settings_step_invariant (w w' : World) :
  settings_step w w' -> invariant w -> invariant w'.
Proof.
  intros [Hs Hf Ht Hcn _ Hc Htm Hfr _ _] [I1 I2 I3 I4 I5]. split.
  - rewrite Ht. exact I1.
  - rewrite Htm, Hc. exact I2.
  - rewrite Hs, Htm. exact I3.
  - rewrite Hfr, Hf. exact I4.
  - rewrite Hcn, Hfr, Hf. exact I5.
Qed.

Lemma animation_frame_scheduled (w : World) :
  frames w = [CbHandleUserScroll] ->
  exec animation_frame w
  = exec handleUserScroll
         (mkWorld (connected w) (state w) (page w) (clock w) (timers w) []
                  (trace w)).
Proof.
  intros H. unfold animation_frame. unfold exec at 1. rewrite H.
  reflexivity.
Qed.

Lemma animation_frame_idle (w : World) :
  frames w = [] -> exec animation_frame w = w.
Proof.
  intros H. unfold animation_frame, exec. rewrite H. simpl.
  rewrite <- H. destruct w; reflexivity.
Qed.

Lemma handle_preserves_invariant (e : event) (w : World) :
  invariant w -> invariant (exec (handle e) w).
Proof.
  intros I. pose proof I as [I1 I2 I3 I4 I5].
  destruct e as [| |m|t|result|pg|]; cbn [handle].
  - (* Scroll *)
    destruct (ScrollState.isScrollScheduled (state w)) eqn:F.
    + rewrite on_scroll_scheduled; assumption.
    + rewrite on_scroll_unscheduled by assumption.
      destruct I4 as [I4 | [_ I4]]; [|congruence].
      split; simpl; try assumption.
      * right. rewrite I4. split; reflexivity.
      * intros _ _. rewrite I4. reflexivity.
  - (* Frame *)
    destruct I4 as [I4 | [I4 F]].
    + rewrite animation_frame_idle; assumption.
    + rewrite animation_frame_scheduled by assumption.
      destruct (handleUserScroll_cases
                  (mkWorld (connected w) (state w) (page w) (clock w)
                           (timers w) [] (trace w)))
        as [[pre [E _]] | [m [C E]]]; rewrite E; simpl in *.
      * split; simpl; try assumption; [left; reflexivity | discriminate].
      * split; simpl; try assumption; [left; reflexivity | congruence].
  - (* Receive *)
    destruct m as [p|p|p|ty]; cbn [handleIncomingMessage];
      try exact I.
    + destruct (ScrollState.enableSync (state w)) eqn:En.
      * rewrite handleSyncScrollMessage_enabled by assumption.
        split; simpl.
        -- assumption.
        -- apply Forall_app. split; [assumption|].
           constructor; [|constructor]. simpl. split; [reflexivity|].
           rewrite I1. lia.
        -- intros _ H. apply app_eq_nil in H. destruct H as [_ H].
           discriminate H.
        -- assumption.
        -- assumption.
      * rewrite handleSyncScrollMessage_disabled; assumption.
    + exact (settings_step_invariant _ _
               (handleSettingsUpdateMessage_frame p w) I).
  - (* Tick *)
    unfold advance_to. unfold exec at 1.
    change (snd (run_callbacks ?l ?x)) with (exec (run_callbacks l) x).
    rewrite run_clear_callbacks.
    2:{ apply Forall_filter. revert I2. apply Forall_impl.
        intros tm [H _]. exact H. }
    split; simpl.
    + destruct (filter (due t) (timers w)); simpl; assumption.
    + apply Forall_filter. revert I2. apply Forall_impl.
      intros tm [H1 H2]. split; [assumption|lia].
    + destruct (filter (due t) (timers w)) eqn:D; simpl.
      * intros H. rewrite (filter_none_due t _ D). apply I3, H.
      * discriminate.
    + destruct (filter (due t) (timers w)); simpl; assumption.
    + destruct (filter (due t) (timers w)); simpl; assumption.
  - (* Loaded *)
    exact (settings_step_invariant _ _
             (loadSettings_callback_frame result w) I).
  - (* Layout *)
    split; simpl; assumption.
  - (* Invalidate *)
    split; simpl; try assumption. discriminate.
Qed.

Lemma run_preserves_invariant (evs : list event) (w : World) :
  invariant w -> invariant (exec (run evs) w).
Proof.
  revert w. induction evs as [|e evs IH]; intros w I; [exact I|].
  rewrite exec_run_cons. apply IH, handle_preserves_invariant, I.
Qed.

(** X2. In every state a tab can reach, also after the extension context
    has been invalidated: [syncTimeout] is 50; every pending timer is one
    that clears [isSyncing] and is due within 50 ms; while [isSyncing] is
    true such a timer is pending; the handler is waiting for the next
    animation frame at most once, and only when [isScrollScheduled] is
    true; and while the extension context is valid it is waiting whenever
    [isScrollScheduled] is true. *)
Theorem reachable_invariant (w : World) : reachable w -> invariant w.
Proof.
  intros [pg [evs ->]]. apply run_preserves_invariant, initial_invariant.
Qed.

(** X2, after a sync command, a scroll and 20 ms. *)
Lemma reachable_invariant_witness :
  invariant
    (exec (run [Receive (SYNC_SCROLL Examples.quarter); Scroll; Tick 20])
          (initial_world Examples.long_page)).
Proof.
  apply reachable_invariant.
  exists Examples.long_page,
    [Receive (SYNC_SCROLL Examples.quarter); Scroll; Tick 20].
  reflexivity.
Defined.

(** Once a send has thrown, the observer stays as it is: with an invalid
    extension context, [isScrollScheduled] true and no callback queued, no
    event requests the handler again and nothing more is sent. *)
Lemma wedged_forever (w : World) (evs : list event) :
  invariant w ->
  connected w = false ->
  ScrollState.isScrollScheduled (state w) = true ->
  frames w = [] ->
  let w' := exec (run evs) w in
  connected w' = false
  /\ ScrollState.isScrollScheduled (state w') = true
  /\ frames w' = []
  /\ sent (trace w') = sent (trace w).
Proof.
  revert w. induction evs as [|e evs IH]; intros w I C F Q.
  - repeat split; assumption.
  - cbv zeta. rewrite exec_run_cons.
    assert (H : connected (exec (handle e) w) = false
                /\ ScrollState.isScrollScheduled
                     (state (exec (handle e) w)) = true
                /\ frames (exec (handle e) w) = []
                /\ sent (trace (exec (handle e) w)) = sent (trace w)).
    { pose proof I as [I1 I2 I3 I4 I5].
      destruct e as [| |m|t|result|pg|]; cbn [handle].
      - rewrite on_scroll_scheduled by assumption.
        repeat split; assumption.
      - rewrite animation_frame_idle by assumption.
        repeat split; assumption.
      - destruct m as [p|p|p|ty]; cbn [handleIncomingMessage];
          try (repeat split; assumption).
        + destruct (ScrollState.enableSync (state w)) eqn:En.
          * rewrite handleSyncScrollMessage_enabled by assumption. simpl.
            rewrite sent_app. simpl. rewrite app_nil_r.
            repeat split; assumption.
          * rewrite handleSyncScrollMessage_disabled by assumption.
            repeat split; assumption.
        + destruct (handleSettingsUpdateMessage_frame p w)
            as [_ Hf _ Hcn _ _ _ Hfr Hs _].
          repeat split; congruence.
      - unfold advance_to. unfold exec at 1 2 3 4.
        change (snd (run_callbacks ?l ?x))
          with (exec (run_callbacks l) x).
        rewrite run_clear_callbacks.
        2:{ apply Forall_filter. revert I2. apply Forall_impl.
            intros tm [H _]. exact H. }
        simpl. rewrite sent_app.
        assert (R : forall n, sent (repeat (SetIsSyncing false) n) = []).
        { induction n; simpl; auto. }
        rewrite R, app_nil_r.
        destruct (filter (due t) (timers w)); repeat split; assumption.
      - destruct (loadSettings_callback_frame result w)
          as [_ Hf _ Hcn _ _ _ Hfr Hs _].
        repeat split; congruence.
      - repeat split; assumption.
      - repeat split; assumption. }
    destruct H as [C' [F' [Q' S']]].
    destruct (IH _ (handle_preserves_invariant e w I) C' F' Q')
      as [A [B [D E]]].
    repeat split; congruence.
Qed.

Lemma filter_all_due (t : Z) (tms : list (Z * callback)) :
  Forall (fun tm => fst tm <= t) tms -> filter (due t) tms = tms.
Proof.
  induction 1 as [|tm tms H _ IH]; simpl; [reflexivity|].
  unfold due at 1. apply Z.leb_le in H. rewrite H, IH. reflexivity.
Qed.

(** X3. Suppression always ends: in every state a tab can reach, once
    50 ms have passed without a further event, [isSyncing] is false. *)
Theorem suppression_ends (w : World) (t : Z) :
  reachable w ->
  clock w + 50 <= t ->
  ScrollState.isSyncing (state (exec (advance_to t) w)) = false.
Proof.
  intros [pg [evs ->]] Ht.
  pose proof (run_preserves_invariant evs _ (initial_invariant pg))
    as [I1 I2 I3 I4].
  set (w := exec (run evs) (initial_world pg)) in *.
  unfold advance_to. unfold exec at 1.
  change (snd (run_callbacks ?l ?x)) with (exec (run_callbacks l) x).
  rewrite filter_all_due.
  2:{ revert I2. apply Forall_impl. intros tm [_ H]. lia. }
  rewrite run_clear_callbacks.
  2:{ revert I2. apply Forall_impl. intros tm [H _]. exact H. }
  simpl. destruct (timers w) eqn:T; simpl.
  - destruct (ScrollState.isSyncing (state w)); [|reflexivity].
    exfalso. apply I3; reflexivity.
  - reflexivity.
Qed.

(** X3, 50 ms after two overlapping sync commands. *)
Lemma suppression_ends_witness :
  ScrollState.isSyncing
    (state
       (exec (advance_to 80)
          (exec (run [Receive (SYNC_SCROLL Examples.quarter); Tick 30;
                      Receive (SYNC_SCROLL Examples.quarter)])
                (initial_world Examples.long_page))))
  = false.
Proof.
  apply suppression_ends.
  - exists Examples.long_page,
      [Receive (SYNC_SCROLL Examples.quarter); Tick 30;
       Receive (SYNC_SCROLL Examples.quarter)].
    reflexivity.
  - vm_compute. discriminate.
Defined.

(** What one event can send: nothing, except an animation frame, which
    sends at most one message. *)
Lemma handle_sends (e : event) (w : World) :
  invariant w ->
  exists l,
    sent (trace (exec (handle e) w)) = sent (trace w) ++ l
    /\ (length l <= if is_frame e then 1 else 0)%nat.
Proof.
  intros [I1 I2 I3 I4 I5].
  destruct e as [| |m|t|result|pg|]; cbn [handle is_frame].
  - exists []. split; [|apply Nat.le_refl].
    destruct (ScrollState.isScrollScheduled (state w)) eqn:F.
    + rewrite on_scroll_scheduled by assumption. now rewrite app_nil_r.
    + rewrite on_scroll_unscheduled by assumption. simpl.
      rewrite sent_app. reflexivity.
  - destruct I4 as [I4 | [I4 F]].
    + rewrite animation_frame_idle by assumption.
      exists []. split; [now rewrite app_nil_r | simpl; lia].
    + rewrite animation_frame_scheduled by assumption.
      destruct (handleUserScroll_cases
                  (mkWorld (connected w) (state w) (page w) (clock w)
                           (timers w) [] (trace w)))
        as [[pre [E [P | [m P]]]] | [m [C E]]];
        rewrite E; try rewrite P; simpl; rewrite sent_app; simpl.
      * exists []. split; [reflexivity|]. simpl. lia.
      * exists [SCROLL_EVENT m]. split; [reflexivity|]. simpl. lia.
      * exists [SCROLL_EVENT m]. split; [reflexivity|]. simpl. lia.
  - exists []. split; [|apply Nat.le_refl]. rewrite app_nil_r.
    destruct m as [p|p|p|ty]; cbn [handleIncomingMessage];
      try reflexivity.
    + destruct (ScrollState.enableSync (state w)) eqn:En.
      * rewrite handleSyncScrollMessage_enabled by assumption. simpl.
        rewrite sent_app. simpl. now rewrite app_nil_r.
      * rewrite handleSyncScrollMessage_disabled by assumption.
        reflexivity.
    + apply (step_sent _ _ (handleSettingsUpdateMessage_frame p w)).
  - exists []. split; [|apply Nat.le_refl]. rewrite app_nil_r.
    unfold advance_to. unfold exec at 1.
    change (snd (run_callbacks ?l ?x)) with (exec (run_callbacks l) x).
    rewrite run_clear_callbacks.
    2:{ apply Forall_filter. revert I2. apply Forall_impl.
        intros tm [H _]. exact H. }
    simpl. rewrite sent_app.
    assert (R : forall n, sent (repeat (SetIsSyncing false) n) = []).
    { induction n; simpl; auto. }
    rewrite R. now rewrite app_nil_r.
  - exists []. split; [|apply Nat.le_refl]. rewrite app_nil_r.
    apply (step_sent _ _ (loadSettings_callback_frame result w)).
  - exists []. split; [|apply Nat.le_refl]. now rewrite app_nil_r.
  - exists []. split; [|apply Nat.le_refl]. now rewrite app_nil_r.
Qed.

(** X4. Rate limit: over any run of events from a state a tab can reach,
    the observer sends at most one SCROLL_EVENT per animation frame of the
    run, however many scroll notifications, messages and timers occur. *)
Theorem emissions_bounded_by_frames (w : World) (evs : list event) :
  reachable w ->
  (length (sent (trace (exec (run evs) w)))
   <= length (sent (trace w)) + length (filter is_frame evs))%nat.
Proof.
  intros [pg [evs0 ->]].
  pose proof (run_preserves_invariant evs0 _ (initial_invariant pg)) as I.
  set (w := exec (run evs0) (initial_world pg)) in *. clearbody w.
  revert w I. induction evs as [|e evs IH]; intros w I.
  - change (exec (run []) w) with w. cbn [filter length]. lia.
  - rewrite exec_run_cons.
    specialize (IH _ (handle_preserves_invariant e w I)).
    destruct (handle_sends e w I) as [l [E L]].
    rewrite E, length_app in IH. cbn [filter].
    destruct (is_frame e); simpl in *; lia.
Qed.

(** X4, on a burst of three scrolls, a frame, two scrolls and a frame. *)
Lemma emissions_bounded_by_frames_witness :
  (length
     (sent (trace (exec (run [Scroll; Scroll; Scroll; Frame;
                              Scroll; Scroll; Frame])
                        (initial_world Examples.long_page))))
   <= 2)%nat.
Proof.
  apply (emissions_bounded_by_frames
           (initial_world Examples.long_page)
           [Scroll; Scroll; Scroll; Frame; Scroll; Scroll; Frame]).
  exists Examples.long_page, []. reflexivity.
Defined.

(** One local event while a sync is being applied. *)
Lemma local_event_while_syncing (e : event) (w : World) :
  invariant w ->
  ScrollState.isSyncing (state w) = true ->
  local_event e = true ->
  sent (trace (exec (handle e) w)) = sent (trace w)
  /\ ScrollState.isSyncing (state (exec (handle e) w)) = true.
Proof.
  intros [I1 I2 I3 I4 I5] S L.
  destruct e as [| |m|t|result|pg|]; try discriminate L; cbn [handle].
  - destruct (ScrollState.isScrollScheduled (state w)) eqn:F.
    + rewrite on_scroll_scheduled by assumption. split; [reflexivity|exact S].
    + rewrite on_scroll_unscheduled by assumption. simpl.
      rewrite sent_app. simpl. rewrite app_nil_r.
      split; [reflexivity|exact S].
  - destruct I4 as [I4 | [I4 F]].
    + rewrite animation_frame_idle by assumption.
      split; [reflexivity|exact S].
    + rewrite animation_frame_scheduled by assumption.
      rewrite handleUserScroll_abort
        by (simpl; rewrite S; apply orb_true_r).
      simpl. rewrite sent_app. simpl. rewrite app_nil_r.
      split; [reflexivity|exact S].
  - split; [reflexivity|exact S].
Qed.

(** X5. Feedback suppression over a run: while [isSyncing] is true, no
    sequence of scroll notifications, animation frames and page changes
    makes the observer send anything, and none of them ends the
    suppression; only a timer does. *)
Theorem suppressed_run_is_silent (w : World) (evs : list event) :
  reachable w ->
  ScrollState.isSyncing (state w) = true ->
  forallb local_event evs = true ->
  sent (trace (exec (run evs) w)) = sent (trace w)
  /\ ScrollState.isSyncing (state (exec (run evs) w)) = true.
Proof.
  intros [pg [evs0 ->]].
  pose proof (run_preserves_invariant evs0 _ (initial_invariant pg)) as I.
  set (w := exec (run evs0) (initial_world pg)) in *. clearbody w.
  revert w I. induction evs as [|e evs IH]; intros w I S L.
  - split; [reflexivity|exact S].
  - cbn [forallb] in L. apply andb_true_iff in L. destruct L as [Le L].
    rewrite exec_run_cons.
    destruct (local_event_while_syncing e w I S Le) as [E S'].
    destruct (IH _ (handle_preserves_invariant e w I) S' L) as [E' S''].
    split; [rewrite E', E; reflexivity | exact S''].
Qed.

(** X5, after a sync command followed by the scroll notifications and the
    frame that the programmatic jump causes. *)
Lemma suppressed_run_is_silent_witness :
  sent (trace
          (exec (run [Layout Examples.longer_page; Scroll; Scroll; Frame])
                (exec (run [Receive (SYNC_SCROLL Examples.quarter)])
                      (initial_world Examples.long_page))))
  = [].
Proof.
  apply (suppressed_run_is_silent
           (exec (run [Receive (SYNC_SCROLL Examples.quarter)])
                 (initial_world Examples.long_page))
           [Layout Examples.longer_page; Scroll; Scroll; Frame]).
  - exists Examples.long_page, [Receive (SYNC_SCROLL Examples.quarter)].
    reflexivity.
  - reflexivity.
  - reflexivity.
Defined.

(** Callbacks run while sync is off. *)
Lemma run_callbacks_disabled (cbs : list callback) (w : World) :
  ScrollState.enableSync (state w) = false ->
  let w' := exec (run_callbacks cbs) w in
  ScrollState.enableSync (state w') = false
  /\ sent (trace w') = sent (trace w)
  /\ scrolled_to (trace w') = scrolled_to (trace w)
  /\ timers w' = timers w.
Proof.
  revert w. induction cbs as [|cb cbs IH]; intros w En.
  - repeat split; solve [exact En | reflexivity].
  - cbn [run_callbacks]. cbv zeta. rewrite exec_seq.
    assert (H : ScrollState.enableSync (state (exec (run_callback cb) w))
                = false
                /\ sent (trace (exec (run_callback cb) w)) = sent (trace w)
                /\ scrolled_to (trace (exec (run_callback cb) w))
                   = scrolled_to (trace w)
                /\ timers (exec (run_callback cb) w) = timers w).
    { destruct cb; cbn [run_callback].
      - rewrite handleUserScroll_abort by (rewrite En; reflexivity).
        simpl. rewrite sent_app, scrolled_to_app. simpl.
        rewrite !app_nil_r. repeat split; solve [exact En | reflexivity].
      - unfold exec, assign_isSyncing, perform. simpl.
        rewrite sent_app, scrolled_to_app. simpl.
        rewrite !app_nil_r. repeat split; solve [exact En | reflexivity]. }
    destruct H as [En' [S [T Tm]]].
    destruct (IH _ En') as [En'' [S' [T' Tm']]].
    repeat split; congruence.
Qed.

(** X6. While sync is off the observer is inert: over any run of events
    that does not change the settings, it sends nothing, never moves the
    page and stays off, whatever messages, scrolls, frames and timers
    occur. *)
Theorem disabled_run_is_inert (w : World) (evs : list event) :
  ScrollState.enableSync (state w) = false ->
  forallb (fun e => negb (changes_settings e)) evs = true ->
  let w' := exec (run evs) w in
  ScrollState.enableSync (state w') = false
  /\ sent (trace w') = sent (trace w)
  /\ scrolled_to (trace w') = scrolled_to (trace w).
Proof.
  revert w. induction evs as [|e evs IH]; intros w En L.
  - repeat split; solve [exact En | reflexivity].
  - cbn [forallb] in L. apply andb_true_iff in L. destruct L as [Le L].
    cbv zeta. rewrite exec_run_cons.
    assert (H : ScrollState.enableSync (state (exec (handle e) w)) = false
                /\ sent (trace (exec (handle e) w)) = sent (trace w)
                /\ scrolled_to (trace (exec (handle e) w))
                   = scrolled_to (trace w)).
    { destruct e as [| |m|t|result|pg|]; cbn [handle].
      - destruct (ScrollState.isScrollScheduled (state w)) eqn:F.
        + rewrite on_scroll_scheduled by assumption.
          repeat split; solve [exact En | reflexivity].
        + rewrite on_scroll_unscheduled by assumption. simpl.
          rewrite sent_app, scrolled_to_app. simpl. rewrite !app_nil_r.
          repeat split; solve [exact En | reflexivity].
      - change (exec animation_frame w)
          with (exec (run_callbacks (frames w))
                     (mkWorld (connected w) (state w) (page w) (clock w) (timers w) []
                              (trace w))).
        destruct (run_callbacks_disabled (frames w)
                    (mkWorld (connected w) (state w) (page w) (clock w) (timers w) []
                             (trace w)) En) as [A [B [C _]]].
        repeat split; assumption.
      - destruct m as [p|p|p|ty]; try discriminate Le;
          cbn [handleIncomingMessage];
          try (repeat split; solve [exact En | reflexivity]).
        rewrite handleSyncScrollMessage_disabled by assumption.
        repeat split; solve [exact En | reflexivity].
      - change (exec (advance_to t) w)
          with (exec (run_callbacks (map snd (filter (due t) (timers w))))
                     (mkWorld (connected w) (state w) (page w) (Z.max (clock w) t)
                              (filter (fun tm => negb (due t tm))
                                      (timers w))
                              (frames w) (trace w))).
        destruct (run_callbacks_disabled
                    (map snd (filter (due t) (timers w)))
                    (mkWorld (connected w) (state w) (page w) (Z.max (clock w) t)
                             (filter (fun tm => negb (due t tm)) (timers w))
                             (frames w) (trace w)) En) as [A [B [C _]]].
        repeat split; assumption.
      - discriminate Le.
      - repeat split; solve [exact En | reflexivity].
      - repeat split; solve [exact En | reflexivity]. }
    destruct H as [En' [S T]].
    destruct (IH _ En' L) as [En'' [S' T']].
    repeat split; congruence.
Qed.

(** X6, on a tab switched off that is scrolled and then receives a sync
    command. *)
Lemma disabled_run_is_inert_witness :
  let w := exec (run [Receive (SETTINGS_UPDATED
                                 (SettingsUpdate.mk (Some false) None))])
                (initial_world Examples.long_page) in
  let w' := exec (run [Scroll; Frame;
                       Receive (SYNC_SCROLL Examples.quarter); Tick 100])
                 w in
  ScrollState.enableSync (state w') = false
  /\ sent (trace w') = []
  /\ scrolled_to (trace w') = [].
Proof.
  apply (disabled_run_is_inert
           (exec (run [Receive (SETTINGS_UPDATED
                                  (SettingsUpdate.mk (Some false) None))])
                 (initial_world Examples.long_page))
           [Scroll; Frame; Receive (SYNC_SCROLL Examples.quarter);
            Tick 100]).
  - reflexivity.
  - reflexivity.
Defined.

(** X7. Loading the settings: a key that was never saved, an empty saved
    mode and a callback without a result all give the defaults
    ([enableSync] true, mode "percentage"); saved values are taken as they
    are.  Afterwards the mode is never empty, and nothing but the two
    settings has changed. *)
Theorem loadSettings_defaults
    (result : option SettingsUpdate.t) (w : World) :
  let w' := exec (loadSettings_callback result) w in
  ScrollState.enableSync (state w')
  = match result with
    | Some (SettingsUpdate.mk (Some b) _) => b
    | _ => true
    end
  /\ ScrollState.syncMode (state w')
     = match result with
       | Some (SettingsUpdate.mk _ (Some m)) =>
           if String.eqb m "" then "percentage" else m
       | _ => "percentage"
       end
  /\ ScrollState.syncMode (state w') <> ""
  /\ settings_step w w'.
Proof.
  cbv zeta. split; [|split; [|split]].
  - destruct result as [[[b|] m]|]; reflexivity.
  - destruct result as [[b [m|]]|]; reflexivity.
  - destruct result as [[b [m|]]|]; simpl; try discriminate.
    destruct (String.eqb m "") eqn:E; [discriminate|].
    apply String.eqb_neq, E.
  - apply loadSettings_callback_frame.
Qed.

(** X8. From the sender's page to the receiver's jump: a scroll emitted
    from a page at offset y with range R, relayed with a non-empty mode, is
    applied by an enabled observer as one [scrollTo]: in mode "percentage"
    to (y / R) times the receiving page's own range, in any other mode to y
    itself.  The observer's cached mode plays no part. *)
Theorem relayed_scroll_target
    (sender_page : Page) (m : ScrollMetrics.t) (mode : string) (w : World) :
  calculateScrollMetrics sender_page = Some m ->
  ScrollState.enableSync (state w) = true ->
  mode <> "" ->
  scrolled_to
    (trace (exec (handleIncomingMessage (Background.sync_scroll m mode)) w))
  = scrolled_to (trace w)
    ++ [if String.eqb mode "percentage"
        then (scrollY sender_page / scrollable_range sender_page
              * scrollable_range (page w))%float
        else scrollY sender_page].
Proof.
  intros M En Hm.
  assert (E : m = ScrollMetrics.mk
                    (scrollY sender_page / scrollable_range sender_page)%float
                    (scrollY sender_page)).
  { unfold calculateScrollMetrics in M. fold (scrollable_range sender_page) in M.
    destruct (scrollable_range sender_page <=? 0)%float; [discriminate|].
    injection M as <-. reflexivity. }
  subst m. unfold Background.sync_scroll. cbn [handleIncomingMessage].
  rewrite handleSyncScrollMessage_enabled by assumption. simpl.
  rewrite scrolled_to_app. simpl. f_equal. f_equal.
  unfold calculateTargetScrollPosition, js_or. simpl.
  apply String.eqb_neq in Hm. rewrite Hm.
  destruct (String.eqb mode "percentage"); reflexivity.
Qed.

(** X8, from a page of range 1000 at 250 to a page of range 2000. *)
Lemma relayed_scroll_target_witness :
  scrolled_to
    (trace (exec (handleIncomingMessage
                    (Background.sync_scroll Examples.scrolled "percentage"))
                 (initial_world Examples.longer_page)))
  = [500%float]
  /\ scrolled_to
       (trace (exec (handleIncomingMessage
                       (Background.sync_scroll Examples.scrolled "pixel"))
                    (initial_world Examples.longer_page)))
     = [250%float].
Proof.
  split.
  - apply (relayed_scroll_target Examples.long_page Examples.scrolled
             "percentage" (initial_world Examples.longer_page));
      [reflexivity | reflexivity | discriminate].
  - apply (relayed_scroll_target Examples.long_page Examples.scrolled
             "pixel" (initial_world Examples.longer_page));
      [reflexivity | reflexivity | discriminate].
Defined.

(** X9, for a command that reaches a fresh tab at 10 ms: at 59 ms the flag
    is still set, at 60 ms it is not. *)
Lemma single_command_window_witness :
  ScrollState.isSyncing
    (state (exec (advance_to 59)
              (exec (receive_at 10 (SYNC_SCROLL Examples.quarter))
                    (initial_world Examples.long_page)))) = true
  /\ ScrollState.isSyncing
       (state (exec (advance_to 60)
                 (exec (receive_at 10 (SYNC_SCROLL Examples.quarter))
                       (initial_world Examples.long_page)))) = false.
Proof.
  split.
  - apply (proj1 (single_command_window
                    (initial_world Examples.long_page) Examples.quarter
                    10 59 eq_refl eq_refl)).
    reflexivity.
  - apply (proj2 (single_command_window
                    (initial_world Examples.long_page) Examples.quarter
                    10 60 eq_refl eq_refl)).
    vm_compute. discriminate.
Defined.

End TimelineProperties.

(** ** The relay router from the listener's side *)

Section RouterRuns.
Import JS Background RouterSpec.

Lemma strict_eq_refl (v : value) : strict_eq v v = true.
Proof.
  destruct v; simpl;
    [reflexivity | apply Z.eqb_refl | apply String.eqb_refl
    | apply Nat.eqb_refl].
Qed.

Lemma strict_eq_neq (a b : value) : a <> b -> strict_eq a b = false.
Proof.
  intros H. destruct (strict_eq a b) eqn:E; [|reflexivity].
  exfalso. apply H, strict_eq_eq, E.
Qed.

Lemma isInSameSplitView_defined_refl (v : value) :
  v <> undefined -> isInSameSplitView v v = true.
Proof.
  intros H. destruct v; [contradiction| | |]; exact (strict_eq_refl _).
Qed.

(** X10. [isInSameSplitView] is equality: it holds of two values exactly
    when both are undefined or both are the same number, string or symbol.
    In particular it is reflexive, symmetric and transitive. *)
Theorem isInSameSplitView_iff_eq (id1 id2 : value) :
  isInSameSplitView id1 id2 = true <-> id1 = id2.
Proof.
  split.
  - intros H. destruct id1, id2; try reflexivity;
      try (simpl in H; discriminate H);
      apply strict_eq_eq; exact H.
  - intros <-. destruct id1; try reflexivity;
      exact (strict_eq_refl _).
Qed.

Lemma getSettings_effective (b : Browser) :
  getSettings b = ([], Ok (effective_settings b)).
Proof.
  unfold getSettings, storage_sync_get, effective_settings.
  destruct (storage b); reflexivity.
Qed.

(** [handleScrollEvent] without its monadic plumbing. *)
Lemma handleScrollEvent_unfold (b : Browser) (payload : ScrollMetrics.t)
    (sender : Sender.t) :
  handleScrollEvent b payload sender
  = if negb (Settings.enableSync (effective_settings b)) then ([], Ok tt)
    else match Sender.tab sender with
         | None => ([], Ok tt)
         | Some st =>
             match getSplitViewId st with
             | Throw => ([], Ok tt)
             | Ok key =>
                 relayScrollEventToTabs b payload sender key
                   (Settings.syncMode (effective_settings b))
             end
         end.
Proof.
  unfold handleScrollEvent. rewrite getSettings_effective.
  unfold bind at 1.
  destruct (Settings.enableSync (effective_settings b)); [|reflexivity].
  cbn [negb].
  unfold sender_tab. destruct (Sender.tab sender) as [st|] eqn:Hs;
    [|reflexivity].
  unfold bind at 1, ret at 1, lift.
  destruct (getSplitViewId st) as [key|]; [|reflexivity].
  unfold bind at 1.
  pose proof (relay_never_throws b payload sender key
                (Settings.syncMode (effective_settings b))) as H.
  destruct (relayScrollEventToTabs b payload sender key
              (Settings.syncMode (effective_settings b))) as [l r].
  unfold outcome in H. simpl in H. subst r. reflexivity.
Qed.

(** X10, on a split-view id. *)
Lemma isInSameSplitView_iff_eq_witness :
  isInSameSplitView (number 3) (Tab.splitViewId Examples.split2) = true.
Proof.
  apply (proj2 (isInSameSplitView_iff_eq
                  (number 3) (Tab.splitViewId Examples.split2))).
  reflexivity.
Defined.

(** X11. A router switched off relays nothing: when the stored
    [enableSync] is false, [handleScrollEvent] sends no message, whoever
    the sender is and whatever tabs are open. *)
Theorem disabled_router_sends_nothing (b : Browser)
    (payload : ScrollMetrics.t) (sender : Sender.t)
    (items : SettingsUpdate.t) :
  storage b = Ok items ->
  SettingsUpdate.enableSync items = Some false ->
  handleScrollEvent b payload sender = ([], Ok tt).
Proof.
  intros Hs He. rewrite handleScrollEvent_unfold.
  unfold effective_settings. rewrite Hs, He. reflexivity.
Qed.

(** X12. When storage fails, or holds neither key, the router works with
    the defaults: the event is relayed, in mode "percentage". *)
Theorem storage_failure_relays_with_defaults (b : Browser)
    (payload : ScrollMetrics.t) (sender : Sender.t) (st : Tab.t)
    (key : value) :
  storage b = Throw \/ storage b = Ok (SettingsUpdate.mk None None) ->
  Sender.tab sender = Some st ->
  getSplitViewId st = Ok key ->
  handleScrollEvent b payload sender
  = relayScrollEventToTabs b payload sender key "percentage".
Proof.
  intros Hs Ht Hk. rewrite handleScrollEvent_unfold.
  unfold effective_settings.
  destruct Hs as [-> | ->]; simpl; rewrite Ht, Hk; reflexivity.
Qed.

(** X13. The error paths of [handleScrollEvent] are silent: if the message
    does not come from a tab, if building the sender's key throws, or if
    the browser cannot list the window's tabs, nothing is sent and nothing
    is thrown. *)
Theorem handleScrollEvent_error_paths (b : Browser)
    (payload : ScrollMetrics.t) (sender : Sender.t) :
  Sender.tab sender = None
  \/ (exists st, Sender.tab sender = Some st
                 /\ (getSplitViewId st = Throw
                     \/ tabs_query b (Tab.windowId st) = Throw)) ->
  handleScrollEvent b payload sender = ([], Ok tt).
Proof.
  intros H. rewrite handleScrollEvent_unfold.
  destruct (negb (Settings.enableSync (effective_settings b)));
    [reflexivity|].
  destruct H as [Hs | [st [Hs [Hk | Hq]]]]; rewrite Hs; try reflexivity.
  - rewrite Hk. reflexivity.
  - destruct (getSplitViewId st) as [key|]; [|reflexivity].
    unfold relayScrollEventToTabs, sender_tab at 1. rewrite Hs.
    unfold bind at 1, ret at 1, lift. rewrite Hq. reflexivity.
Qed.

(** X11, with three tabs of one split view open. *)
Lemma disabled_router_sends_nothing_witness :
  handleScrollEvent
    (mkBrowser (Ok (SettingsUpdate.mk (Some false) (Some "pixel")))
               (fun _ => Ok [Examples.split1; Examples.split2;
                             Examples.split3])
               (fun _ => true))
    Examples.scrolled (Sender.mk (Some Examples.split1))
  = ([], Ok tt).
Proof.
  apply (disabled_router_sends_nothing _ _ _
           (SettingsUpdate.mk (Some false) (Some "pixel")));
    reflexivity.
Defined.

(** X12, with failing storage and three tabs of one split view. *)
Lemma storage_failure_relays_with_defaults_witness :
  handleScrollEvent
    (mkBrowser Throw
               (fun _ => Ok [Examples.split1; Examples.split2])
               (fun _ => true))
    Examples.scrolled (Sender.mk (Some Examples.split1))
  = ([mkAttempt (number 2) (sync_scroll Examples.scrolled "percentage")
                true],
     Ok tt).
Proof.
  apply (storage_failure_relays_with_defaults
           (mkBrowser Throw
                      (fun _ => Ok [Examples.split1; Examples.split2])
                      (fun _ => true))
           Examples.scrolled (Sender.mk (Some Examples.split1))
           Examples.split1 (number 3)).
  - left. reflexivity.
  - reflexivity.
  - reflexivity.
Defined.

(** X13, for a message that does not come from a tab. *)
Lemma handleScrollEvent_error_paths_witness :
  handleScrollEvent Examples.tab2_gone Examples.scrolled (Sender.mk None)
  = ([], Ok tt).
Proof.
  apply handleScrollEvent_error_paths. left. reflexivity.
Defined.

(** X14. Who is sent a command, and which: every send of
    [handleScrollEvent] goes to a tab that the browser lists for the
    sender's window, never to the sender itself, and only when sync is
    enabled; every send carries the same message, the event's percentage
    and pixel with the stored mode. *)
Theorem handleScrollEvent_recipients (b : Browser)
    (payload : ScrollMetrics.t) (sender : Sender.t) (a : attempt) :
  In a (attempts (handleScrollEvent b payload sender)) ->
  Settings.enableSync (effective_settings b) = true
  /\ message a
     = sync_scroll payload (Settings.syncMode (effective_settings b))
  /\ exists st tabs tab,
       Sender.tab sender = Some st
       /\ tabs_query b (Tab.windowId st) = Ok tabs
       /\ In tab tabs
       /\ target a = Tab.id tab
       /\ Tab.id tab <> Tab.id st
       /\ received a = listening b (Tab.id tab).
Proof.
  rewrite handleScrollEvent_unfold.
  destruct (Settings.enableSync (effective_settings b)); cbn [negb];
    [|intros []].
  destruct (Sender.tab sender) as [st|] eqn:Hs; [|intros []].
  destruct (getSplitViewId st) as [key|]; [|intros []].
  destruct (tabs_query b (Tab.windowId st)) as [tabs|] eqn:Hq.
  - rewrite (relay_attempts b payload sender st key _ tabs Hs Hq).
    unfold attempts. simpl. intros Hin.
    apply in_map_iff in Hin. destruct Hin as [tab [<- Hf]].
    apply filter_In in Hf. destruct Hf as [Hin Hc].
    split; [reflexivity|]. split; [reflexivity|].
    exists st, tabs, tab. repeat split; try assumption.
    intros E. unfold candidate in Hc. rewrite E, strict_eq_refl in Hc.
    discriminate Hc.
  - unfold relayScrollEventToTabs, sender_tab at 1. rewrite Hs.
    unfold bind at 1, ret at 1, lift. rewrite Hq. intros [].
Qed.

(** X14, for the command that reaches tab 3 of a split view. *)
Lemma handleScrollEvent_recipients_witness :
  Settings.enableSync (effective_settings Examples.tab2_gone) = true
  /\ sync_scroll Examples.scrolled "percentage"
     = sync_scroll Examples.scrolled
         (Settings.syncMode (effective_settings Examples.tab2_gone))
  /\ exists st tabs tab,
       Some Examples.split1 = Some st
       /\ tabs_query Examples.tab2_gone (Tab.windowId st) = Ok tabs
       /\ In tab tabs
       /\ number 3 = Tab.id tab
       /\ Tab.id tab <> Tab.id st
       /\ true = listening Examples.tab2_gone (Tab.id tab).
Proof.
  apply (handleScrollEvent_recipients Examples.tab2_gone Examples.scrolled
           (Sender.mk (Some Examples.split1))
           (mkAttempt (number 3)
                      (sync_scroll Examples.scrolled "percentage") true)).
  simpl. auto.
Defined.

(** A tab whose fields hold no symbol has a defined key. *)
Lemma getSplitViewId_of_plain_tab (tab : Tab.t) :
  (forall k, Tab.groupId tab <> symbol k) ->
  (forall k, Tab.index tab <> symbol k) ->
  exists key, getSplitViewId tab = Ok key /\ key <> undefined.
Proof.
  intros Hg Hi. unfold getSplitViewId.
  destruct (Tab.splitViewId tab) eqn:S; simpl;
    try (eexists; split; [reflexivity|discriminate]).
  destruct (Tab.groupId tab) eqn:G; simpl;
    try (eexists; split; [reflexivity|discriminate]).
  - destruct (Tab.index tab) eqn:I; simpl;
      try (eexists; split; [reflexivity|discriminate]).
    exfalso. apply (Hi k). reflexivity.
  - exfalso. apply (Hg k). reflexivity.
Qed.

(** X15. No "ungrouped" key in practice: a tab whose [groupId] and [index]
    are numbers, strings or absent always gets a defined key, and
    [getSplitViewId] does not throw on it; an absent [index] gives the key
    "pos-undefined". *)
Theorem getSplitViewId_defined_key (tab : Tab.t) :
  (forall k, Tab.groupId tab <> symbol k) ->
  (forall k, Tab.index tab <> symbol k) ->
  (exists key, getSplitViewId tab = Ok key /\ key <> undefined)
  /\ (Tab.splitViewId tab = undefined ->
      Tab.groupId tab = undefined ->
      Tab.index tab = undefined ->
      getSplitViewId tab = Ok (str "pos-undefined")).
Proof.
  intros Hg Hi. split; [apply getSplitViewId_of_plain_tab; assumption|].
  intros S G I. unfold getSplitViewId. rewrite S, G, I. reflexivity.
Qed.

(** X15, on a tab with none of the three fields. *)
Lemma getSplitViewId_defined_key_witness :
  getSplitViewId Examples.bare1 = Ok (str "pos-undefined").
Proof.
  apply (proj2 (getSplitViewId_defined_key Examples.bare1
                  ltac:(discriminate) ltac:(discriminate)));
    reflexivity.
Defined.

(** X16. Recipients share the sender's key: when the sender's [groupId]
    and [index] hold no symbol, every tab that is sent a command resolves,
    by [getSplitViewId], to the very key of the sender. *)
Theorem recipients_share_sender_key (b : Browser)
    (payload : ScrollMetrics.t) (sender : Sender.t) (st : Tab.t)
    (a : attempt) :
  Sender.tab sender = Some st ->
  (forall k, Tab.groupId st <> symbol k) ->
  (forall k, Tab.index st <> symbol k) ->
  In a (attempts (handleScrollEvent b payload sender)) ->
  exists tabs tab,
    tabs_query b (Tab.windowId st) = Ok tabs
    /\ In tab tabs
    /\ target a = Tab.id tab
    /\ getSplitViewId tab = getSplitViewId st.
Proof.
  intros Hs Hg Hi. rewrite handleScrollEvent_unfold, Hs.
  destruct (negb (Settings.enableSync (effective_settings b)));
    [intros []|].
  destruct (getSplitViewId_of_plain_tab st Hg Hi) as [key [Hk Hd]].
  rewrite Hk.
  destruct (tabs_query b (Tab.windowId st)) as [tabs|] eqn:Hq.
  - intros Hin.
    destruct (relayed_tabs_share_sender_key b payload sender st key _ tabs a
                Hs Hq Hd Hin) as [tab [H1 [H2 [_ H3]]]].
    exists tabs, tab. repeat split; assumption.
  - unfold relayScrollEventToTabs, sender_tab at 1. rewrite Hs.
    unfold bind at 1, ret at 1, lift. rewrite Hq. intros [].
Qed.

(** X16, for the command that reaches tab 3 of a split view. *)
Lemma recipients_share_sender_key_witness :
  exists tabs tab,
    tabs_query Examples.tab2_gone (Tab.windowId Examples.split1) = Ok tabs
    /\ In tab tabs
    /\ number 3 = Tab.id tab
    /\ getSplitViewId tab = getSplitViewId Examples.split1.
Proof.
  apply (recipients_share_sender_key Examples.tab2_gone Examples.scrolled
           (Sender.mk (Some Examples.split1)) Examples.split1
           (mkAttempt (number 3)
                      (sync_scroll Examples.scrolled "percentage") true)).
  - reflexivity.
  - discriminate.
  - discriminate.
  - simpl. auto.
Defined.

(** X17. Native split views work: with sync enabled, when the sender has a
    [splitViewId], every other listed tab with that same [splitViewId] is
    sent the command, and receives it if it is listening, whatever happens
    with the other tabs. *)
Theorem split_view_siblings_receive (b : Browser)
    (payload : ScrollMetrics.t) (sender : Sender.t) (st tab : Tab.t)
    (tabs : list Tab.t) :
  Settings.enableSync (effective_settings b) = true ->
  Sender.tab sender = Some st ->
  Tab.splitViewId st <> undefined ->
  tabs_query b (Tab.windowId st) = Ok tabs ->
  In tab tabs ->
  Tab.id tab <> Tab.id st ->
  Tab.splitViewId tab = Tab.splitViewId st ->
  In (mkAttempt (Tab.id tab)
                (sync_scroll payload
                             (Settings.syncMode (effective_settings b)))
                (listening b (Tab.id tab)))
     (attempts (handleScrollEvent b payload sender)).
Proof.
  intros En Hs Hv Hq Hin Hid Hsv.
  rewrite handleScrollEvent_unfold, En, Hs. cbn [negb].
  assert (Hk : getSplitViewId st = Ok (Tab.splitViewId st)).
  { unfold getSplitViewId.
    destruct (Tab.splitViewId st); [contradiction| | |]; reflexivity. }
  rewrite Hk.
  rewrite (relay_attempts b payload sender st _ _ tabs Hs Hq).
  unfold attempts. simpl.
  apply in_map_iff. exists tab. split; [reflexivity|].
  apply filter_In. split; [assumption|].
  unfold candidate. rewrite (strict_eq_neq _ _ Hid), Hsv. simpl.
  apply isInSameSplitView_defined_refl, Hv.
Qed.

(** X17, in a split view of three tabs where tab 2 is not listening. *)
Lemma split_view_siblings_receive_witness :
  In (mkAttempt (number 3) (sync_scroll Examples.scrolled "percentage") true)
     (attempts (handleScrollEvent Examples.tab2_gone Examples.scrolled
                                  (Sender.mk (Some Examples.split1)))).
Proof.
  apply (split_view_siblings_receive Examples.tab2_gone Examples.scrolled
           (Sender.mk (Some Examples.split1)) Examples.split1
           Examples.split3
           [Examples.split1; Examples.split2; Examples.split3]).
  - reflexivity.
  - reflexivity.
  - discriminate.
  - reflexivity.
  - simpl. auto.
  - discriminate.
  - reflexivity.
Defined.

(** X18. Without [splitViewId] nothing is relayed: when no listed tab has a
    [splitViewId] and the sender's [groupId] and [index] hold no symbol,
    [handleScrollEvent] sends no message, whatever tab groups and positions
    the tabs have. *)
Theorem router_inert_without_splitViewId (b : Browser)
    (payload : ScrollMetrics.t) (sender : Sender.t) (st : Tab.t) :
  Sender.tab sender = Some st ->
  (forall k, Tab.groupId st <> symbol k) ->
  (forall k, Tab.index st <> symbol k) ->
  (forall tabs tab,
     tabs_query b (Tab.windowId st) = Ok tabs ->
     In tab tabs -> Tab.splitViewId tab = undefined) ->
  handleScrollEvent b payload sender = ([], Ok tt).
Proof.
  intros Hs Hg Hi Hu. rewrite handleScrollEvent_unfold, Hs.
  destruct (negb (Settings.enableSync (effective_settings b)));
    [reflexivity|].
  destruct (getSplitViewId_of_plain_tab st Hg Hi) as [key [Hk Hd]].
  rewrite Hk.
  destruct (tabs_query b (Tab.windowId st)) as [tabs|] eqn:Hq.
  - rewrite (relay_attempts b payload sender st key _ tabs Hs Hq).
    assert (F : forall l,
               (forall tab, In tab l -> Tab.splitViewId tab = undefined) ->
               filter (candidate st key) l = []).
    { induction l as [|t l IH]; intros H; [reflexivity|].
      cbn [filter].
      rewrite (candidate_needs_splitViewId st t key Hd
                 (H t (or_introl eq_refl))).
      apply IH. intros tab Hin. apply H. right. exact Hin. }
    rewrite (F tabs (fun tab => Hu tabs tab eq_refl)). reflexivity.
  - unfold relayScrollEventToTabs, sender_tab at 1. rewrite Hs.
    unfold bind at 1, ret at 1, lift. rewrite Hq. reflexivity.
Qed.

(** X18, for two tabs of the same tab group. *)
Lemma router_inert_without_splitViewId_witness :
  handleScrollEvent
    (Examples.all_listening [Examples.grouped1; Examples.grouped2])
    Examples.scrolled (Sender.mk (Some Examples.grouped1))
  = ([], Ok tt).
Proof.
  apply (router_inert_without_splitViewId
           (Examples.all_listening [Examples.grouped1; Examples.grouped2])
           Examples.scrolled (Sender.mk (Some Examples.grouped1))
           Examples.grouped1).
  - reflexivity.
  - discriminate.
  - discriminate.
  - intros tabs tab [= <-] [<- | [<- | []]]; reflexivity.
Defined.

Lemma string_of_Z_inj (n m : Z) :
  NilZero.string_of_int (Z.to_int n) = NilZero.string_of_int (Z.to_int m) ->
  n = m.
Proof.
  intros H. apply DecimalZ.to_int_inj.
  assert (N : forall z, Z.to_int z <> Decimal.Pos Decimal.Nil
                        /\ Z.to_int z <> Decimal.Neg Decimal.Nil).
  { intros [|p|p]; simpl; split; try discriminate;
      intros [= E]; apply (DecimalPos.Unsigned.to_uint_nonnil p E). }
  apply (f_equal NilZero.int_of_string) in H.
  rewrite !NilZero.isi in H by apply N.
  injection H as H. exact H.
Qed.

(** X19. Keys tell groups apart: two tabs without [splitViewId] in numbered
    tab groups get the same key exactly when their group ids are equal; two
    tabs with neither [splitViewId] nor [groupId] get the same key exactly
    when their positions are equal; and a group key, a position key and a
    numeric [splitViewId] are never equal to one another. *)
Theorem fallback_keys_distinguish (i1 w1 g1 x1 i2 w2 g2 x2 n : Z) :
  (getSplitViewId (grouped_tab i1 w1 g1 x1)
   = getSplitViewId (grouped_tab i2 w2 g2 x2) <-> g1 = g2)
  /\ (getSplitViewId (positioned_tab i1 w1 x1)
      = getSplitViewId (positioned_tab i2 w2 x2) <-> x1 = x2)
  /\ getSplitViewId (grouped_tab i1 w1 g1 x1)
     <> getSplitViewId (positioned_tab i2 w2 x2)
  /\ getSplitViewId (grouped_tab i1 w1 g1 x1) <> Ok (number n)
  /\ getSplitViewId (positioned_tab i1 w1 x1) <> Ok (number n).
Proof.
  unfold getSplitViewId, grouped_tab, positioned_tab. simpl.
  repeat split; try discriminate.
  - intros [= H]. apply string_of_Z_inj, H.
  - intros ->. reflexivity.
  - intros [= H]. apply string_of_Z_inj, H.
  - intros ->. reflexivity.
Qed.

(** X19, for two tabs of group 5 and for a tab of group 6. *)
Lemma fallback_keys_distinguish_witness :
  getSplitViewId (grouped_tab 1 7 5 0) = getSplitViewId (grouped_tab 2 7 5 1)
  /\ getSplitViewId (grouped_tab 1 7 5 0)
     <> getSplitViewId (grouped_tab 2 7 6 1).
Proof.
  split.
  - apply (proj2 (proj1 (fallback_keys_distinguish 1 7 5 0 2 7 5 1 0))).
    reflexivity.
  - intros H.
    apply (proj1 (proj1 (fallback_keys_distinguish 1 7 5 0 2 7 6 1 0))) in H.
    discriminate H.
Defined.

End RouterRuns.

(** ** The popup: saving settings and telling the tabs *)

Section PopupProperties.
Import JS Popup.

Lemma tell_all_tabs_listed (b : Browser) (payload : SettingsUpdate.t)
    (tabs : list Tab.t) :
  all_tabs b = Ok tabs ->
  tell_all_tabs b payload = (map (notice b payload) tabs, Ok tt).
Proof.
  intros H. unfold tell_all_tabs, lift. rewrite H. unfold bind at 1.
  cbn [app].
  assert (L : for_of tabs (fun tab =>
                try_catch
                  (tabs_sendMessage b (Tab.id tab)
                                    (SETTINGS_UPDATED payload))
                  (ret tt))
              = (map (notice b payload) tabs, Ok tt)).
  { clear H. induction tabs as [|t tabs IH]; [reflexivity|].
    cbn [for_of map]. rewrite IH. unfold tabs_sendMessage, notice.
    destruct (listening b (Tab.id t)); reflexivity. }
  rewrite L. reflexivity.
Qed.

Lemma tell_all_tabs_unlisted (b : Browser) (payload : SettingsUpdate.t) :
  all_tabs b = Throw -> tell_all_tabs b payload = ([], Throw).
Proof.
  intros H. unfold tell_all_tabs, lift. rewrite H. reflexivity.
Qed.

Lemma sends_notices (b : Browser) (payload : SettingsUpdate.t)
    (tabs : list Tab.t) :
  sends (map (notice b payload) tabs)
  = map (fun tab =>
           Background.mkAttempt (Tab.id tab) (SETTINGS_UPDATED payload)
                                (listening b (Tab.id tab)))
        tabs.
Proof.
  induction tabs as [|t tabs IH]; [reflexivity|].
  simpl. rewrite IH. reflexivity.
Qed.

Lemma sends_app (l l' : list effect) : sends (l ++ l') = sends l ++ sends l'.
Proof.
  induction l as [|e l IH]; [reflexivity|].
  destruct e; simpl; rewrite IH; reflexivity.
Qed.

Lemma stored_notices (b : Browser) (payload : SettingsUpdate.t)
    (tabs : list Tab.t) (rest : list effect) (store : SettingsUpdate.t) :
  stored (map (notice b payload) tabs ++ rest) store = stored rest store.
Proof.
  induction tabs as [|t tabs IH]; [reflexivity|]. simpl. exact IH.
Qed.

Lemma delivered_notices (b : Browser) (payload : SettingsUpdate.t)
    (tabs : list Tab.t) (rest : list effect) (tabId : value) (m : Message) :
  In (tabId, m) (delivered (map (notice b payload) tabs ++ rest)) ->
  m = SETTINGS_UPDATED payload \/ In (tabId, m) (delivered rest).
Proof.
  induction tabs as [|t tabs IH]; [right; assumption|].
  simpl. destruct (listening b (Tab.id t)); simpl.
  - intros [[= _ <-] | H]; [left; reflexivity | apply IH, H].
  - apply IH.
Qed.

(** The effects of a save that goes through. *)
Lemma saveSettings_effects (d : Document) (b : Browser)
    (mode : string) (en : bool) (tabs : list Tab.t) :
  syncModeInput d = Some mode ->
  enableSyncInput d = Some en ->
  storage_writable b = true ->
  all_tabs b = Ok tabs ->
  saveSettings d b
  = (StorageSet (SettingsUpdate.mk (Some en) (Some mode))
     :: map (notice b (SettingsUpdate.mk (Some en) (Some mode))) tabs
     ++ (if saveBtn d then [MarkSaved; CloseAfter 500] else []),
     Ok tt).
Proof.
  intros Hm He Hw Ht. unfold saveSettings. rewrite Hm, He.
  unfold storage_sync_set. rewrite Hw.
  rewrite (tell_all_tabs_listed b _ tabs Ht).
  destruct (saveBtn d); reflexivity.
Qed.

(** The effects of a toggle that goes through. *)
Lemma updateSyncStatus_effects (checked : bool) (b : Browser)
    (tabs : list Tab.t) :
  storage_writable b = true ->
  all_tabs b = Ok tabs ->
  updateSyncStatus checked b
  = (StorageSet (SettingsUpdate.mk (Some checked) None)
     :: map (notice b (SettingsUpdate.mk (Some checked) None)) tabs,
     Ok tt).
Proof.
  intros Hw Ht. unfold updateSyncStatus, storage_sync_set. rewrite Hw.
  rewrite (tell_all_tabs_listed b _ tabs Ht). reflexivity.
Qed.

(** X20. A save that goes through: with a mode selected, the checkbox
    present, writable storage and a list of tabs, [saveSettings] stores both
    keys with the values shown, sends every listed tab one SETTINGS_UPDATED
    with those same two values, in order and whether or not earlier sends
    were rejected, shows no error and does not throw. *)
Theorem saveSettings_saves_and_tells_all (d : Document) (b : Browser)
    (mode : string) (en : bool) (tabs : list Tab.t) :
  syncModeInput d = Some mode ->
  enableSyncInput d = Some en ->
  storage_writable b = true ->
  all_tabs b = Ok tabs ->
  let es := effects (saveSettings d b) in
  let items := SettingsUpdate.mk (Some en) (Some mode) in
  (forall store, stored es store = items)
  /\ sends es
     = map (fun tab =>
              Background.mkAttempt (Tab.id tab) (SETTINGS_UPDATED items)
                                   (listening b (Tab.id tab)))
           tabs
  /\ (forall message, ~ In (ShowError message) es)
  /\ snd (saveSettings d b) = Ok tt.
Proof.
  intros Hm He Hw Ht. cbv zeta.
  rewrite (saveSettings_effects d b mode en tabs Hm He Hw Ht).
  unfold effects. cbn [fst snd]. repeat split.
  - intros store. cbn [stored]. rewrite stored_notices.
    destruct (saveBtn d); reflexivity.
  - cbn [sends]. rewrite sends_app, sends_notices.
    destruct (saveBtn d); simpl; apply app_nil_r.
  - intros message [H | H]; [discriminate H|].
    apply in_app_or in H. destruct H as [H | H].
    + apply in_map_iff in H. destruct H as [tab [H _]]. discriminate H.
    + destruct (saveBtn d); simpl in H;
        repeat (destruct H as [H | H]; [discriminate H|]); exact H.
Qed.

(** X20, with three tabs open, one of them without a listener. *)
Lemma saveSettings_saves_and_tells_all_witness :
  let b := mkBrowser true
             (Ok [Examples.split1; Examples.split2; Examples.split3])
             (fun v => negb (strict_eq v (number 2))) in
  let d := mkDocument (Some "pixel") (Some true) true in
  sends (effects (saveSettings d b))
  = map (fun tab =>
           Background.mkAttempt
             (Tab.id tab)
             (SETTINGS_UPDATED (SettingsUpdate.mk (Some true) (Some "pixel")))
             (negb (strict_eq (Tab.id tab) (number 2))))
        [Examples.split1; Examples.split2; Examples.split3].
Proof.
  apply (saveSettings_saves_and_tells_all
           (mkDocument (Some "pixel") (Some true) true)
           (mkBrowser true
              (Ok [Examples.split1; Examples.split2; Examples.split3])
              (fun v => negb (strict_eq v (number 2))))
           "pixel" true
           [Examples.split1; Examples.split2; Examples.split3]
           eq_refl eq_refl eq_refl eq_refl).
Defined.

(** X21. A save that fails: [saveSettings] never throws.  Without a
    selected mode or without the checkbox it stores nothing and tells no
    tab; when storage rejects the write it tells no tab; when the tabs
    cannot be listed the settings are stored but no tab is told.  In each
    case the error "Failed to save settings" is shown. *)
Theorem saveSettings_failures (d : Document) (b : Browser) :
  snd (saveSettings d b) = Ok tt
  /\ (syncModeInput d = None \/ enableSyncInput d = None ->
      saveSettings d b = ([ShowError "Failed to save settings"], Ok tt))
  /\ (storage_writable b = false ->
      saveSettings d b = ([ShowError "Failed to save settings"], Ok tt))
  /\ (forall mode en,
        syncModeInput d = Some mode ->
        enableSyncInput d = Some en ->
        storage_writable b = true ->
        all_tabs b = Throw ->
        saveSettings d b
        = ([StorageSet (SettingsUpdate.mk (Some en) (Some mode));
            ShowError "Failed to save settings"],
           Ok tt)).
Proof.
  repeat split.
  - unfold saveSettings, storage_sync_set.
    destruct (syncModeInput d) as [mode|]; [|reflexivity].
    destruct (enableSyncInput d) as [en|]; [|reflexivity].
    destruct (storage_writable b); [|reflexivity].
    destruct (all_tabs b) as [tabs|] eqn:Ht.
    + rewrite (tell_all_tabs_listed b _ tabs Ht).
      destruct (saveBtn d); reflexivity.
    + rewrite (tell_all_tabs_unlisted b _ Ht). reflexivity.
  - unfold saveSettings. intros [-> | ->]; [reflexivity|].
    destruct (syncModeInput d); reflexivity.
  - intros Hw. unfold saveSettings, storage_sync_set. rewrite Hw.
    destruct (syncModeInput d); [|reflexivity].
    destruct (enableSyncInput d); reflexivity.
  - intros mode en Hm He Hw Ht.
    unfold saveSettings, storage_sync_set. rewrite Hm, He, Hw.
    rewrite (tell_all_tabs_unlisted b _ Ht). reflexivity.
Qed.

(** X21, when the tabs cannot be listed. *)
Lemma saveSettings_failures_witness :
  saveSettings (mkDocument (Some "pixel") (Some true) true)
               (mkBrowser true Throw (fun _ => true))
  = ([StorageSet (SettingsUpdate.mk (Some true) (Some "pixel"));
      ShowError "Failed to save settings"],
     Ok tt).
Proof.
  apply (proj2 (proj2 (proj2
           (saveSettings_failures
              (mkDocument (Some "pixel") (Some true) true)
              (mkBrowser true Throw (fun _ => true)))))
           "pixel" true eq_refl eq_refl eq_refl eq_refl).
Defined.

(** X22. The toggle reaches the observers as a partial update: every
    message of [updateSyncStatus] that a tab receives sets that tab's
    [enableSync] to the checkbox and changes nothing else; [syncMode] in
    particular keeps its value. *)
Theorem toggle_reaches_observers (checked : bool) (b : Browser)
    (tabId : value) (m : Message) (w : Content.World) :
  In (tabId, m) (delivered (effects (updateSyncStatus checked b))) ->
  let w' := Content.exec (Content.handleIncomingMessage m) w in
  ScrollState.enableSync (Content.state w') = checked
  /\ ScrollState.syncMode (Content.state w')
     = ScrollState.syncMode (Content.state w)
  /\ Timeline.settings_step w w'.
Proof.
  intros H.
  assert (E : m = SETTINGS_UPDATED (SettingsUpdate.mk (Some checked) None)).
  { unfold updateSyncStatus, storage_sync_set in H.
    destruct (storage_writable b); [|destruct H].
    destruct (all_tabs b) as [tabs|] eqn:Ht.
    - rewrite (tell_all_tabs_listed b _ tabs Ht) in H.
      unfold effects in H. simpl in H.
      rewrite <- (app_nil_r (map _ tabs)) in H.
      apply delivered_notices in H. destruct H as [H | []]. exact H.
    - rewrite (tell_all_tabs_unlisted b _ Ht) in H. destruct H. }
  subst m. cbv zeta. cbn [Content.handleIncomingMessage].
  split; [reflexivity|]. split; [reflexivity|].
  apply handleSettingsUpdateMessage_frame.
Qed.

(** X22, for tab 3 in pixel mode when the toggle is switched off. *)
Lemma toggle_reaches_observers_witness :
  let b := mkBrowser true (Ok [Examples.split2; Examples.split3])
                     (fun _ => true) in
  let w := Content.mkWorld true (ScrollState.mk false true "pixel" false 50)
                           Examples.long_page 0 [] [] [] in
  let w' := Content.exec
              (Content.handleIncomingMessage
                 (SETTINGS_UPDATED (SettingsUpdate.mk (Some false) None)))
              w in
  ScrollState.enableSync (Content.state w') = false
  /\ ScrollState.syncMode (Content.state w') = "pixel"
  /\ Timeline.settings_step w w'.
Proof.
  apply (toggle_reaches_observers false
           (mkBrowser true (Ok [Examples.split2; Examples.split3])
                      (fun _ => true))
           (number 3)
           (SETTINGS_UPDATED (SettingsUpdate.mk (Some false) None))
           (Content.mkWorld true (ScrollState.mk false true "pixel" false 50)
                            Examples.long_page 0 [] [] [])).
  simpl. auto.
Defined.

(** X23. After a save that goes through, router and observers agree: the
    router's next [getSettings] returns the two values shown in the popup,
    whatever was stored before, and every tab that received the update
    holds the same two values. *)
Theorem save_makes_router_and_observers_agree (d : Document) (b : Browser)
    (mode : string) (en : bool) (tabs : list Tab.t) :
  syncModeInput d = Some mode ->
  enableSyncInput d = Some en ->
  storage_writable b = true ->
  all_tabs b = Ok tabs ->
  let es := effects (saveSettings d b) in
  (forall store query listens,
     Background.getSettings
       (Background.mkBrowser (Ok (stored es store)) query listens)
     = ([], Ok (Settings.mk en mode)))
  /\ (forall tabId m w,
        In (tabId, m) (delivered es) ->
        let st' := Content.state
                     (Content.exec (Content.handleIncomingMessage m) w) in
        ScrollState.enableSync st' = en /\ ScrollState.syncMode st' = mode).
Proof.
  intros Hm He Hw Ht. cbv zeta.
  rewrite (saveSettings_effects d b mode en tabs Hm He Hw Ht).
  unfold effects. cbn [fst]. split.
  - intros store query listens. cbn [stored]. rewrite stored_notices.
    destruct (saveBtn d); reflexivity.
  - intros tabId m w H. cbn [delivered] in H.
    apply delivered_notices in H. destruct H as [-> | H].
    + split; reflexivity.
    + destruct (saveBtn d); destruct H.
Qed.

(** X23, with pixel mode selected and sync switched off. *)
Lemma save_makes_router_and_observers_agree_witness :
  let b := mkBrowser true (Ok [Examples.split2; Examples.split3])
                     (fun _ => true) in
  let d := mkDocument (Some "pixel") (Some false) true in
  Background.getSettings
    (Background.mkBrowser
       (Ok (stored (effects (saveSettings d b))
                   (SettingsUpdate.mk (Some true) (Some "percentage"))))
       (fun _ => Ok []) (fun _ => true))
  = ([], Ok (Settings.mk false "pixel")).
Proof.
  apply (proj1 (save_makes_router_and_observers_agree
                  (mkDocument (Some "pixel") (Some false) true)
                  (mkBrowser true (Ok [Examples.split2; Examples.split3])
                             (fun _ => true))
                  "pixel" false [Examples.split2; Examples.split3]
                  eq_refl eq_refl eq_refl eq_refl)).
Defined.

(** X24. The toggle leaves the stored mode alone: whatever
    [updateSyncStatus] does, the mode the router reads afterwards is the
    mode it read before; and when storage takes the write, the router reads
    the checkbox as [enableSync]. *)
Theorem toggle_keeps_stored_mode (checked : bool) (b : Browser)
    (store : SettingsUpdate.t) (query : value -> result (list Tab.t))
    (listens : value -> bool) :
  let before := Background.mkBrowser (Ok store) query listens in
  let after :=
    Background.mkBrowser
      (Ok (stored (effects (updateSyncStatus checked b)) store))
      query listens in
  exists s s',
    Background.getSettings before = ([], Ok s)
    /\ Background.getSettings after = ([], Ok s')
    /\ Settings.syncMode s' = Settings.syncMode s
    /\ (storage_writable b = true -> Settings.enableSync s' = checked)
    /\ (storage_writable b = false -> s' = s).
Proof.
  cbv zeta. rewrite !getSettings_effective.
  eexists. eexists. split; [reflexivity|]. split; [reflexivity|].
  unfold updateSyncStatus, storage_sync_set.
  destruct (storage_writable b).
  - destruct (all_tabs b) as [tabs|] eqn:Ht.
    + rewrite (tell_all_tabs_listed b _ tabs Ht).
      unfold effects. simpl. rewrite <- (app_nil_r (map _ tabs)).
      rewrite stored_notices. simpl.
      repeat split; try reflexivity. discriminate.
    + rewrite (tell_all_tabs_unlisted b _ Ht).
      repeat split; try reflexivity. discriminate.
  - repeat split; try reflexivity. discriminate.
Qed.

(** X24, when pixel mode is stored and the toggle is switched off. *)
Lemma toggle_keeps_stored_mode_witness :
  exists s s',
    Background.getSettings
      (Background.mkBrowser
         (Ok (SettingsUpdate.mk (Some true) (Some "pixel")))
         (fun _ => Ok []) (fun _ => true))
    = ([], Ok s)
    /\ Background.getSettings
         (Background.mkBrowser
            (Ok (stored (effects (updateSyncStatus false
                                    (mkBrowser true (Ok [Examples.split2])
                                               (fun _ => true))))
                        (SettingsUpdate.mk (Some true) (Some "pixel"))))
            (fun _ => Ok []) (fun _ => true))
       = ([], Ok s')
    /\ Settings.syncMode s' = Settings.syncMode s
    /\ (true = true -> Settings.enableSync s' = false)
    /\ (true = false -> s' = s).
Proof.
  apply (toggle_keeps_stored_mode false
           (mkBrowser true (Ok [Examples.split2]) (fun _ => true))
           (SettingsUpdate.mk (Some true) (Some "pixel"))
           (fun _ => Ok []) (fun _ => true)).
Defined.

End PopupProperties.

(** ** Browser detection *)

Section DetectionProperties.
Import JS BrowserDetection.

(** X25. [detectBrowser] throws exactly where there is no global [window].
    Otherwise its flags are consistent: a browser is reported as Chrome
    exactly when it is reported as Chromium or as Edge, never as both; it
    is reported as Edge only if the user agent contains "Edg"; and it is
    reported as Chrome only if [window.chrome] has a truthy [webstore] or
    [runtime]. *)
Theorem detectBrowser_flags (g : Globals) :
  (detectBrowser g = Throw <-> window g = None)
  /\ forall info,
       detectBrowser g = Ok info ->
       (isChrome info = true
        <-> isChromium info = true \/ isEdgeChromium info = true)
       /\ (isChromium info = true -> isEdgeChromium info = false)
       /\ (isEdgeChromium info = true ->
           contains "Edg" (userAgent g) = true)
       /\ (isChrome info = true ->
           exists c, window g = Some (Some c)
                     /\ (webstore c = true \/ runtime c = true))
       /\ isFirefox info = InstallTrigger g.
Proof.
  unfold detectBrowser. split.
  - destruct (window g); split; intros H; try discriminate; reflexivity.
  - intros info H. destruct (window g) as [chrome|]; [|discriminate].
    injection H as <-. cbn [isChrome isChromium isEdgeChromium isFirefox].
    destruct chrome as [c|]; simpl.
    + destruct (webstore c || runtime c) eqn:C; simpl.
      * destruct (contains "Edg" (userAgent g)); simpl;
          repeat split; auto; try discriminate;
          intros _; exists c; (split; [reflexivity|]);
          apply orb_true_iff, C.
      * repeat split; try discriminate; intros []; discriminate.
    + repeat split; try discriminate; intros []; discriminate.
Qed.

(** X25, on the user agents of Edge and of Chrome. *)
Lemma detectBrowser_flags_witness :
  isChromium
    (mkInfo true false true false) = true
  \/ isEdgeChromium (mkInfo true false true false) = true.
Proof.
  apply (proj1 (proj2 (detectBrowser_flags
           (mkGlobals (Some (Some (mkChrome false true))) false
              "Mozilla/5.0 (Windows NT 10.0; Win64; x64) AppleWebKit/537.36 (KHTML, like Gecko) Chrome/120.0.0.0 Safari/537.36 Edg/120.0.0.0"))
           (mkInfo true false true false) eq_refl)).
  reflexivity.
Defined.

End DetectionProperties.
